(** * Debug log of the Bayesian-optimisation searcher, and the restricted
      unpickler

    A shallow embedding of

    - [autogluon/core/searcher/bayesopt/autogluon/debug_log.py]
      ([_to_key], [ConfigCounter], [DebugLogPrinter]) and
    - [autogluon/core/utils/loaders/load_pkl.py]
      ([safe_builtins], [RestrictedUnpickler.find_class]),

    followed by the properties of the configuration registry and of the
    block aggregator.

    Conventions of the embedding.
    - A Python [dict] holding a configuration is an association list in
      insertion order with pairwise distinct names ([items()] order matters
      for rendering); the tables [_config_id] and [block_info] are finite
      maps.
    - A method is a function from the state of [self] (and of the objects it
      can reach) to an outcome and the state afterwards.  The state is kept
      when the method raises: whatever was mutated before the exception
      stays mutated.
    - The table behind [_config_id] is an object in a store and the field
      holds a reference to it, since [get_mutable_state] hands that object
      out and [set_mutable_state] takes one in.
    - Python [int] is [Z]; [str] is [string], read as a sequence of code
      points below 256.  An [assert] is executed, and the assertion that
      failed stands for its message. *)

From Stdlib Require Import ZArith String Ascii List.
From stdpp Require Import base option list gmap strings pretty sorting.

Local Open Scope Z_scope.

(** ** Python values and their rendering *)

Module Py.

(** The scalars a configuration may hold (numbers are integers here; [None]
    is not a configuration value, so [dict.get] answers [None] exactly when
    the name is absent). *)
Inductive value : Type :=
  | VInt (z : Z)
  | VBool (b : bool)
  | VStr (s : string).

#[global] Instance value_eq_dec : EqDecision value.
Proof. solve_decision. Defined.

Definition nl : string := String "010" EmptyString.
Definition squote : ascii := "'"%char.
Definition dquote : ascii := "034"%char.
Definition backslash : ascii := "\"%char.

(** [str(int)] *)
Definition str_int (z : Z) : string := pretty z.

(** [str(bool)] *)
Definition str_bool (b : bool) : string := if b then "True" else "False".

(** [str(v)], as used by [format] with a [{}] field. *)
Definition str (v : value) : string :=
  match v with
  | VInt z => str_int z
  | VBool b => str_bool b
  | VStr s => s
  end.

Fixpoint occurs (c : ascii) (s : string) : bool :=
  match s with
  | EmptyString => false
  | String d s' => if decide (c = d) then true else occurs c s'
  end.

Definition hex_digit (n : N) : ascii :=
  match n with
  | 0 => "0" | 1 => "1" | 2 => "2" | 3 => "3" | 4 => "4" | 5 => "5"
  | 6 => "6" | 7 => "7" | 8 => "8" | 9 => "9" | 10 => "a" | 11 => "b"
  | 12 => "c" | 13 => "d" | 14 => "e" | _ => "f"
  end%char%N.

(** Code points that [repr] writes as an escape: controls, DEL, the C1
    block, the no-break space and the soft hyphen. *)
Definition unprintable (n : N) : bool :=
  ((n <? 32) || ((127 <=? n) && (n <=? 160)) || (n =? 173))%N.

Definition repr_char (q c : ascii) : string :=
  if decide (c = backslash) then String backslash (String backslash EmptyString)
  else if decide (c = q) then String backslash (String q EmptyString)
  else if decide (c = "009"%char) then String backslash "t"
  else if decide (c = "010"%char) then String backslash "n"
  else if decide (c = "013"%char) then String backslash "r"
  else
    let n := N_of_ascii c in
    if unprintable n
    then String backslash
           (String "x" (String (hex_digit (n / 16)%N)
                          (String (hex_digit (n mod 16)%N) EmptyString)))
    else String c EmptyString.

Fixpoint repr_body (q : ascii) (s : string) : string :=
  match s with
  | EmptyString => EmptyString
  | String c s' => repr_char q c +:+ repr_body q s'
  end.

(** [repr(str)]: double quotes when the text has a single quote and no
    double quote, single quotes otherwise. *)
Definition quote_of (s : string) : ascii :=
  if occurs squote s && negb (occurs dquote s) then dquote else squote.

Definition repr_str (s : string) : string :=
  let q := quote_of s in
  String q (repr_body q s +:+ String q EmptyString).

(** [repr(v)], as used for the items of a tuple. *)
Definition repr (v : value) : string :=
  match v with
  | VInt z => str_int z
  | VBool b => str_bool b
  | VStr s => repr_str s
  end.

(** [sep.join(parts)] *)
Definition join (sep : string) (parts : list string) : string :=
  String.concat sep parts.

(** [str(tuple)]: a one-item tuple keeps its trailing comma. *)
Definition str_tuple (t : list value) : string :=
  match t with
  | [] => "()"
  | [v] => "(" +:+ repr v +:+ ",)"
  | _ => "(" +:+ join ", " (repr <$> t) +:+ ")"
  end.

End Py.

(** ** Configurations as dictionaries *)

Module Dict.

(** A configuration dictionary in insertion order. *)
Abbreviation t := (list (string * Py.value)).

(** Names are pairwise distinct in a Python [dict]. *)
Definition wf (d : t) : Prop := NoDup d.*1.

(** [d.get(name)] *)
Fixpoint get (name : string) (d : t) : option Py.value :=
  match d with
  | [] => None
  | (k, v) :: d' => if decide (k = name) then Some v else get name d'
  end.

(** [del d[name]] on a copy. *)
Definition remove (name : string) (d : t) : t :=
  filter (λ kv, kv.1 ≠ name) d.

(** Two dictionaries are the same mapping when every name reads the same. *)
Definition same (d1 d2 : t) : Prop := ∀ name, get name d1 = get name d2.

(** [sorted(d.items(), key=lambda x: x[0])]: a stable sort on the name,
    names compared by code point. *)
Fixpoint insert_item (e : string * Py.value) (l : t) : t :=
  match l with
  | [] => [e]
  | e' :: l' =>
      if String.leb e.1 e'.1 then e :: e' :: l' else e' :: insert_item e l'
  end.

Fixpoint sorted_items (d : t) : t :=
  match d with
  | [] => []
  | e :: d' => insert_item e (sorted_items d')
  end.

End Dict.

(** ** Canonical key *)

(** The part of [ExtendedConfiguration] that the log uses. *)
Record ExtendedConfiguration : Type := {
  resource_attr_name : string
}.

#[global] Instance ExtendedConfiguration_eq_dec : EqDecision ExtendedConfiguration.
Proof. solve_decision. Defined.

(** Modelled from the spec: [ExtendedConfiguration.remove_resource] lives in
    [config_ext.py], which is not part of the sources at hand.  It returns
    the configuration with the resource attribute removed. *)
Definition remove_resource (ext : ExtendedConfiguration) (config : Dict.t) : Dict.t :=
  Dict.remove (resource_attr_name ext) config.

(** [_to_key(config, configspace_ext)] returns the key, the dictionary
    without the resource, and the resource (or [None]). *)
Definition _to_key (config : Dict.t) (configspace_ext : option ExtendedConfiguration)
  : string * Dict.t * option Py.value :=
  let config_dict := config in
  let '(config_dict, resource) :=
    match configspace_ext with
    | None => (config_dict, None)
    | Some ext =>
        let resource := Dict.get (resource_attr_name ext) config_dict in
        match resource with
        | Some _ => (remove_resource ext config, resource)
        | None => (config_dict, resource)
        end
    end in
  let config_tpl := (Dict.sorted_items config_dict).*2 in
  (Py.str_tuple config_tpl, config_dict, resource).

Definition key_of (config : Dict.t) (ext : option ExtendedConfiguration) : string :=
  (_to_key config ext).1.1.
Definition stripped (config : Dict.t) (ext : option ExtendedConfiguration) : Dict.t :=
  (_to_key config ext).1.2.
Definition resource_of (config : Dict.t) (ext : option ExtendedConfiguration)
  : option Py.value :=
  (_to_key config ext).2.


(** ** Exceptions and methods *)

(** The assertion that failed stands for its message. *)
Inductive assertion : Type :=
  | ConfigAlreadyAssigned   (* "Config {} already has been assigned a config ID = {}" *)
  | UnknownGetConfigType    (* gc_type in {'random', 'BO'} *)
  | BlockCurrentlyOpen      (* "Block for get_config of type '{}' is currently open" *)
  | NoBlockOpen             (* "No block open right now" *)
  | ConfigMustNotBeExtended (* "set_final_config: config must not be extended" *)
  | NeedBOBlock.            (* "Need to be in 'BO' block" *)

Inductive exn : Type :=
  | AssertionError (a : assertion)
  | KeyError (key : string)
  | TypeError
  | UnpicklingError (msg : string).

Inductive outcome (A : Type) : Type :=
  | Return (a : A)
  | Raise (e : exn).
Arguments Return {A} a.
Arguments Raise {A} e.

(** A method over a state [S]: it returns or raises, and in both cases
    leaves a state behind. *)
Definition M (S A : Type) : Type := S → outcome A * S.

#[global] Instance M_ret {S} : MRet (M S) := λ A a s, (Return a, s).
#[global] Instance M_bind {S} : MBind (M S) := λ A B f m s,
  match m s with
  | (Return a, s') => f a s'
  | (Raise e, s') => (Raise e, s')
  end.

Definition raise {S A} (e : exn) : M S A := λ s, (Raise e, s).
Definition py_assert {S} (b : bool) (a : assertion) : M S () :=
  if b then mret () else raise (AssertionError a).
Definition gets {S A} (f : S → A) : M S A := λ s, (Return (f s), s).
Definition modify {S} (f : S → S) : M S () := λ s, (Return (), f s).

(** [for x in xs: f(x)], collecting the results, stopping at the first
    exception. *)
Fixpoint for_each {S A B} (f : A → M S B) (xs : list A) : M S (list B) :=
  match xs with
  | [] => mret []
  | x :: xs' => y ← f x; ys ← for_each f xs'; mret (y :: ys)
  end.

(** ** The store shared by the objects *)

(** A [dict] object is reached through a reference: two fields that hold the
    same reference see each other's updates. *)
Abbreviation loc := positive.
Abbreviation table := (gmap string Z).

(** What the methods can reach besides [self]: the [dict] objects behind
    [_config_id] fields, and the records given to [logger.info]. *)
Record World : Type := {
  dicts : gmap loc table;
  logged : list string
}.

Definition world0 : World := {| dicts := ∅; logged := [] |}.

Definition deref (w : World) (l : loc) : table := dicts w !!! l.
Definition store_dict (l : loc) (d : table) (w : World) : World :=
  {| dicts := <[l := d]> (dicts w); logged := logged w |}.
Definition log_info (msg : string) (w : World) : World :=
  {| dicts := dicts w; logged := logged w ++ [msg] |}.

(** [dict()]: a new, empty dictionary object. *)
Definition new_dict (w : World) : loc * World :=
  let l := fresh (dom (dicts w)) in (l, store_dict l ∅ w).

(** ** ConfigCounter *)

Module ConfigCounter.

Record t : Type := {
  config_counter : Z;
  _config_id : loc;
  configspace_ext : option ExtendedConfiguration
}.

(** The dictionary returned by [get_mutable_state]: the counter, and the
    table object itself (no copy is taken). *)
Record mutable_state : Type := {
  st_config_counter : Z;
  st_config_id : loc
}.

(** The table as [self] sees it. *)
Definition table_of (self : t) (w : World) : table := deref w (_config_id self).

Definition __init__ (configspace_ext : option ExtendedConfiguration) (w : World)
  : t * World :=
  let '(d, w') := new_dict w in
  ({| config_counter := 0; _config_id := d; configspace_ext := configspace_ext |}, w').

Definition add_config (config : Dict.t) : M (t * World) (Dict.t * option Py.value) :=
  λ '(self, w),
    let '(config_key, config_dct, resource) := _to_key config (configspace_ext self) in
    let _id := table_of self w !! config_key in
    match _id with
    | Some _ => (Raise (AssertionError ConfigAlreadyAssigned), (self, w))
    | None =>
        let w := store_dict (_config_id self)
                   (<[config_key := config_counter self]> (table_of self w)) w in
        let self := {| config_counter := config_counter self + 1;
                       _config_id := _config_id self;
                       configspace_ext := configspace_ext self |} in
        (Return (config_dct, resource), (self, w))
    end.

Definition config_id (config : Dict.t) : M (t * World) string :=
  λ '(self, w),
    let '(config_key, _, resource) := _to_key config (configspace_ext self) in
    match table_of self w !! config_key with
    | None => (Raise (KeyError config_key), (self, w))
    | Some i =>
        let _id := Py.str_int i in
        match resource with
        | None => (Return _id, (self, w))
        | Some r => (Return (_id +:+ ":" +:+ Py.str r), (self, w))
        end
    end.

Definition get_mutable_state : M (t * World) mutable_state :=
  λ '(self, w),
    (Return {| st_config_counter := config_counter self;
               st_config_id := _config_id self |}, (self, w)).

Definition set_mutable_state (state : mutable_state) : M (t * World) () :=
  λ '(self, w),
    (Return (), ({| config_counter := st_config_counter state;
                    _config_id := st_config_id state;
                    configspace_ext := configspace_ext self |}, w)).

End ConfigCounter.

(** ** DebugLogPrinter *)

(** What [set_state] reads of a [TuningJobState]: the candidates of
    [candidate_evaluations], and [pending_candidates]. *)
Record TuningJobState : Type := {
  candidate_evaluations : list Dict.t;
  pending_candidates : list Dict.t
}.

Module DebugLogPrinter.

(** An entry of [block_info]: rendered text, or the integer stored by
    [set_num_evaluations]. *)
Inductive info : Type :=
  | Text (s : string)
  | Count (n : Z).

Definition str_info (v : info) : string :=
  match v with
  | Text s => s
  | Count n => Py.str_int n
  end.

Record t : Type := {
  config_counter : ConfigCounter.t;
  block_info : gmap string info;
  get_config_type : option string
}.

Definition with_config_counter (cc : ConfigCounter.t) (self : t) : t :=
  {| config_counter := cc; block_info := block_info self;
     get_config_type := get_config_type self |}.
Definition with_block_info (b : gmap string info) (self : t) : t :=
  {| config_counter := config_counter self; block_info := b;
     get_config_type := get_config_type self |}.
Definition with_get_config_type (k : option string) (self : t) : t :=
  {| config_counter := config_counter self; block_info := block_info self;
     get_config_type := k |}.

(** A call [self.config_counter.m(...)]. *)
Definition on_config_counter {A} (m : M (ConfigCounter.t * World) A) : M (t * World) A :=
  λ '(self, w),
    let '(r, (cc, w')) := m (config_counter self, w) in
    (r, (with_config_counter cc self, w')).

(** [self.block_info[name] = v] *)
Definition set_info (name : string) (v : info) : M (t * World) () :=
  modify (λ '(self, w), (with_block_info (<[name := v]> (block_info self)) self, w)).

(** [logger.info(msg)] *)
Definition logger_info (msg : string) : M (t * World) () :=
  modify (λ '(self, w), (self, log_info msg w)).

Definition in_BO_block : M (t * World) () :=
  k ← gets (λ s, get_config_type s.1);
  py_assert (bool_decide (k = Some "BO")) NeedBOBlock.

(** ['{}: {}'.format(k, v) for k, v in config.items()] *)
Definition entries (config : Dict.t) : list string :=
  (λ kv, kv.1 +:+ ": " +:+ Py.str kv.2) <$> config.

Definition __init__ (configspace_ext : option ExtendedConfiguration) (w : World)
  : t * World :=
  let '(cc, w') := ConfigCounter.__init__ configspace_ext w in
  ({| config_counter := cc; block_info := ∅; get_config_type := None |}, w').

Definition set_configspace_ext (configspace_ext : ExtendedConfiguration)
  : M (t * World) () :=
  λ '(self, w),
    let '(cc, w') := ConfigCounter.__init__ (Some configspace_ext) w in
    (Return (), (with_config_counter cc self, w')).

Definition config_id (config : Dict.t) : M (t * World) string :=
  on_config_counter (ConfigCounter.config_id config).

Definition start_get_config (gc_type : string) : M (t * World) () :=
  py_assert (bool_decide (gc_type ∈ ["random"; "BO"])) UnknownGetConfigType;;
  k ← gets (λ s, get_config_type s.1);
  py_assert (bool_decide (k = None)) BlockCurrentlyOpen;;
  modify (λ '(self, w), (with_get_config_type (Some gc_type) self, w));;
  c ← gets (λ s, ConfigCounter.config_counter (config_counter s.1));
  logger_info ("Starting get_config[" +:+ gc_type +:+ "] for config_id "
               +:+ Py.str_int c).

Definition set_final_config (config : Dict.t) : M (t * World) () :=
  k ← gets (λ s, get_config_type s.1);
  py_assert (bool_decide (k ≠ None)) NoBlockOpen;;
  '(config, resource) ← on_config_counter (ConfigCounter.add_config config);
  py_assert (bool_decide (resource = None)) ConfigMustNotBeExtended;;
  let msg := Py.join Py.nl (entries config) in
  set_info "final_config" (Text msg).

Definition set_state (state : TuningJobState) : M (t * World) () :=
  in_BO_block;;
  let labeled_configs := candidate_evaluations state in
  labeled ← for_each config_id labeled_configs;
  let labeled_str := Py.join ", " labeled in
  pending ← for_each config_id (pending_candidates state);
  let pending_str := Py.join ", " pending in
  let msg := "Labeled: " +:+ labeled_str +:+ ". Pending: " +:+ pending_str in
  set_info "state" (Text msg).

(** The numpy arrays and the parameter dictionary come from outside: the
    setters below take the text that [str] gives for them. *)
Definition set_targets (targets_str : string) : M (t * World) () :=
  in_BO_block;;
  set_info "targets" (Text ("Targets: " +:+ targets_str)).

Definition set_gp_params (params_str : string) : M (t * World) () :=
  in_BO_block;;
  set_info "params" (Text ("GP params:" +:+ params_str)).

Definition set_fantasies (fantasies_str : string) : M (t * World) () :=
  in_BO_block;;
  set_info "fantasies" (Text ("Fantasized targets:" +:+ Py.nl +:+ fantasies_str)).

Definition set_init_config (config : Dict.t) (top_scores_str : option string)
  : M (t * World) () :=
  in_BO_block;;
  ext ← gets (λ s, ConfigCounter.configspace_ext (config_counter s.1));
  let '(_, config, _) := _to_key config ext in
  let msg := "Started BO from (top scorer):" +:+ Py.nl
             +:+ Py.join Py.nl (entries config) in
  let msg := match top_scores_str with
             | Some ts => msg +:+ (Py.nl +:+ "Top score values: " +:+ ts)
             | None => msg
             end in
  set_info "start_config" (Text msg).

Definition set_num_evaluations (num_evals : Z) : M (t * World) () :=
  in_BO_block;;
  set_info "num_evals" (Count num_evals).

Definition append_extra (extra : string) : M (t * World) () :=
  b ← gets (λ s, block_info s.1);
  match b !! "extra" with
  | Some (Text old) => set_info "extra" (Text (Py.join Py.nl [old; extra]))
  | Some (Count _) => raise TypeError
  | None => set_info "extra" (Text extra)
  end.

(** The loop over [('state', 'targets', 'params')] of [write_block]. *)
Fixpoint expected_parts (b : gmap string info) (names : list string)
    (parts : list info) : M (t * World) (list info) :=
  match names with
  | [] => mret parts
  | name :: names' =>
      match b !! name with
      | Some v => expected_parts b names' (parts ++ [v])
      | None =>
          logger_info ("debug_log.write_block: '" +:+ name +:+ "' part is missing!");;
          expected_parts b names' parts
      end
  end.

(** [parts.append(info[name])] when [name in info]. *)
Definition append_if_present (b : gmap string info) (name : string)
    (parts : list info) : list info :=
  match b !! name with
  | Some v => parts ++ [v]
  | None => parts
  end.

(** The operands of [str.join] must be strings. *)
Fixpoint texts (parts : list info) : option (list string) :=
  match parts with
  | [] => Some []
  | Text s :: parts' => (s ::.) <$> texts parts'
  | Count _ :: _ => None
  end.

Definition write_block : M (t * World) () :=
  k ← gets (λ s, get_config_type s.1);
  match k with
  | None => raise (AssertionError NoBlockOpen)
  | Some kind =>
      b ← gets (λ s, block_info s.1);
      c ← gets (λ s, ConfigCounter.config_counter (config_counter s.1));
      let _config_id := c - 1 in
      let parts :=
        match b !! "num_evals" with
        | Some n => [Text ("[" +:+ Py.str_int _config_id +:+ ": " +:+ kind +:+ "] ("
                           +:+ str_info n +:+ " evaluations)")]
        | None => [Text ("[" +:+ Py.str_int _config_id +:+ ": " +:+ kind +:+ "]")]
        end in
      match b !! "final_config" with
      | None => raise (KeyError "final_config")
      | Some fc =>
          let parts := parts ++ [fc] in
          parts ← (if bool_decide (kind = "BO") then
                     let parts := append_if_present b "start_config" parts in
                     parts ← expected_parts b ["state"; "targets"; "params"] parts;
                     mret (append_if_present b "fantasies" parts)
                   else mret parts);
          let parts := append_if_present b "extra" parts in
          match texts parts with
          | None => raise TypeError
          | Some ss =>
              logger_info (Py.join Py.nl ss);;
              modify (λ '(self, w),
                ({| config_counter := config_counter self; block_info := ∅;
                    get_config_type := None |}, w))
          end
      end
  end.

Definition get_mutable_state : M (t * World) ConfigCounter.mutable_state :=
  on_config_counter ConfigCounter.get_mutable_state.

Definition set_mutable_state (state : ConfigCounter.mutable_state) : M (t * World) () :=
  k ← gets (λ s, get_config_type s.1);
  py_assert (bool_decide (k = None)) BlockCurrentlyOpen;;
  on_config_counter (ConfigCounter.set_mutable_state state);;
  modify (λ '(self, w), (with_block_info ∅ self, w)).

End DebugLogPrinter.

(** ** RestrictedUnpickler *)

Module RestrictedUnpickler.

Definition safe_builtins : gset string :=
  {["range"; "complex"; "set"; "frozenset"; "slice"]}.

(** The object [getattr(builtins, name)]. *)
Inductive py_object : Type :=
  | BuiltinAttr (name : string).

Definition find_class (module name : string) : outcome py_object :=
  if bool_decide (module = "builtins") && bool_decide (name ∈ safe_builtins)
  then Return (BuiltinAttr name)
  else Raise (UnpicklingError
                ("global '" +:+ module +:+ "." +:+ name +:+ "' is forbidden")).

(** [pickle.Unpickler.load] is Python's own.  What matters of it here is that
    every global named by the stream is resolved by [self.find_class], in
    stream order, and that an exception of [find_class] ends the load. *)
Fixpoint resolve_globals (refs : list (string * string)) : outcome (list py_object) :=
  match refs with
  | [] => Return []
  | (module, name) :: refs' =>
      match find_class module name with
      | Raise e => Raise e
      | Return o =>
          match resolve_globals refs' with
          | Raise e => Raise e
          | Return os => Return (o :: os)
          end
      end
  end.

End RestrictedUnpickler.

(** ** Call sequences *)

(** A caller drives a registry through [add_config] and [config_id]; an
    exception ends the call, not the caller. *)
Module Registry.

Abbreviation state := (ConfigCounter.t * World)%type.

Inductive call : Type :=
  | AddConfig (config : Dict.t)
  | ConfigId (config : Dict.t).

(** What a call answers: the text of [config_id], or the pair returned by
    [add_config]. *)
Inductive answer : Type :=
  | Added (config_dct : Dict.t) (resource : option Py.value)
  | Id (text : string).

Definition step (c : call) (s : state) : outcome answer * state :=
  match c with
  | AddConfig config =>
      match ConfigCounter.add_config config s with
      | (Return (d, r), s') => (Return (Added d r), s')
      | (Raise e, s') => (Raise e, s')
      end
  | ConfigId config =>
      match ConfigCounter.config_id config s with
      | (Return i, s') => (Return (Id i), s')
      | (Raise e, s') => (Raise e, s')
      end
  end.

(** The answers of a call sequence, and the state it leaves. *)
Fixpoint run (cs : list call) (s : state) : list (outcome answer) * state :=
  match cs with
  | [] => ([], s)
  | c :: cs' =>
      let '(a, s') := step c s in
      let '(as', s'') := run cs' s' in
      (a :: as', s'')
  end.

(** The identifier that a successful [add_config] has just given to
    [config]: what the table now holds for its key. *)
Definition minted (config : Dict.t) (s : state) : option Z :=
  ConfigCounter.table_of s.1 s.2
    !! key_of config (ConfigCounter.configspace_ext s.1).

(** The identifiers minted by the successful inserts among [configs], in
    call order. *)
Fixpoint inserts (configs : list Dict.t) (s : state) : list (option Z) * state :=
  match configs with
  | [] => ([], s)
  | config :: configs' =>
      match ConfigCounter.add_config config s with
      | (Return _, s') =>
          let '(ids, s'') := inserts configs' s' in (minted config s' :: ids, s'')
      | (Raise _, s') => inserts configs' s'
      end
  end.

End Registry.

(** The calls a search loop makes on the printer. *)
Module Printer.

Abbreviation state := (DebugLogPrinter.t * World)%type.

Inductive call : Type :=
  | SetConfigspaceExt (ext : ExtendedConfiguration)
  | ConfigId (config : Dict.t)
  | StartGetConfig (gc_type : string)
  | SetFinalConfig (config : Dict.t)
  | SetState (state : TuningJobState)
  | SetTargets (targets_str : string)
  | SetGpParams (params_str : string)
  | SetFantasies (fantasies_str : string)
  | SetInitConfig (config : Dict.t) (top_scores_str : option string)
  | SetNumEvaluations (num_evals : Z)
  | AppendExtra (extra : string)
  | WriteBlock
  | SetMutableState (state : ConfigCounter.mutable_state).

Definition step (c : call) (s : state) : state :=
  match c with
  | SetConfigspaceExt ext => (DebugLogPrinter.set_configspace_ext ext s).2
  | ConfigId config => (DebugLogPrinter.config_id config s).2
  | StartGetConfig gc_type => (DebugLogPrinter.start_get_config gc_type s).2
  | SetFinalConfig config => (DebugLogPrinter.set_final_config config s).2
  | SetState state => (DebugLogPrinter.set_state state s).2
  | SetTargets x => (DebugLogPrinter.set_targets x s).2
  | SetGpParams x => (DebugLogPrinter.set_gp_params x s).2
  | SetFantasies x => (DebugLogPrinter.set_fantasies x s).2
  | SetInitConfig config ts => (DebugLogPrinter.set_init_config config ts s).2
  | SetNumEvaluations n => (DebugLogPrinter.set_num_evaluations n s).2
  | AppendExtra x => (DebugLogPrinter.append_extra x s).2
  | WriteBlock => (DebugLogPrinter.write_block s).2
  | SetMutableState st => (DebugLogPrinter.set_mutable_state st s).2
  end.

(** The state after a call sequence, whatever each call answered. *)
Definition run (cs : list call) (s : state) : state := foldl (flip step) s cs.

Definition is_set_final_config (c : call) : bool :=
  match c with SetFinalConfig _ => true | _ => false end.
Definition is_write_block (c : call) : bool :=
  match c with WriteBlock => true | _ => false end.

End Printer.

(** ** The report, as section 6 of the specification lays it out *)

Module Report.

Import DebugLogPrinter.

(** [[<id>: <kind>]], or [[<id>: <kind>] (<n> evaluations)] when an
    evaluation count was set. *)
Definition header (id : Z) (kind : string) (num_evals : option info) : string :=
  match num_evals with
  | Some n => "[" +:+ Py.str_int id +:+ ": " +:+ kind +:+ "] ("
              +:+ str_info n +:+ " evaluations)"
  | None => "[" +:+ Py.str_int id +:+ ": " +:+ kind +:+ "]"
  end.

(** An optional part: there when it was set. *)
Definition part (b : gmap string info) (name : string) : list string :=
  match b !! name with
  | Some v => [str_info v]
  | None => []
  end.

(** Header, finalized configuration, then for BO the start configuration,
    state, targets, parameters and fantasies, then the extra block. *)
Definition parts (id : Z) (kind : string) (b : gmap string info) : list string :=
  [header id kind (b !! "num_evals")]
  ++ part b "final_config"
  ++ (if bool_decide (kind = "BO")
      then part b "start_config" ++ part b "state" ++ part b "targets"
           ++ part b "params" ++ part b "fantasies"
      else [])
  ++ part b "extra".

(** The diagnostic recorded for an expected BO part that was not supplied. *)
Definition missing (b : gmap string info) (name : string) : list string :=
  match b !! name with
  | Some _ => []
  | None => ["debug_log.write_block: '" +:+ name +:+ "' part is missing!"]
  end.

Definition diagnostics (kind : string) (b : gmap string info) : list string :=
  if bool_decide (kind = "BO")
  then missing b "state" ++ missing b "targets" ++ missing b "params"
  else [].

End Report.

(** Order of two items under the sort key of [_to_key]. *)
Definition name_le (e1 e2 : string * Py.value) : Prop := String.leb e1.1 e2.1 = true.

(** ** Notions used by the properties *)

(** Characters of a rendered integer. *)
Definition numeric (c : ascii) : bool :=
  bool_decide (c ∈ ["-"; "0"; "1"; "2"; "3"; "4"; "5"; "6"; "7"; "8"; "9"]%char).

Fixpoint all_numeric (s : string) : bool :=
  match s with
  | EmptyString => true
  | String c s' => numeric c && all_numeric s'
  end.

(** What follows an item in the text of a tuple: a comma or the closing
    parenthesis. *)
Definition delimited (s : string) : Prop :=
  ∃ c r, s = String c r ∧ (c = ","%char ∨ c = ")"%char).

(** The kind of value that a rendered item starts: integer, boolean or
    text. *)
Definition kind_of_head (c : ascii) : option nat :=
  if numeric c then Some 0%nat
  else if bool_decide (c ∈ ["T"; "F"]%char) then Some 1%nat
  else if bool_decide (c ∈ [Py.squote; Py.dquote]) then Some 2%nat
  else None.

Definition kind_of_value (v : Py.value) : nat :=
  match v with Py.VInt _ => 0 | Py.VBool _ => 1 | Py.VStr _ => 2 end%nat.

(** The items of a tuple of one or more values, up to the closing
    parenthesis. *)
Definition items (l : list Py.value) : string :=
  Py.join ", " (Py.repr <$> l) +:+ ")".

Definition head (s : string) : option ascii :=
  match s with EmptyString => None | String c _ => Some c end.

(** The text of an identifier: [<int>] for a base configuration,
    [<int>:<resource-value>] for a resource-extended one. *)
Definition identifier (id : Z) (resource : option Py.value) : string :=
  match resource with
  | None => Py.str_int id
  | Some r => Py.str_int id +:+ ":" +:+ Py.str r
  end.

(** An insert is an update of the table object in place and a step of the
    counter. *)
Definition inserted (key : string) (self : ConfigCounter.t) (w : World)
  : ConfigCounter.t * World :=
  ({| ConfigCounter.config_counter := ConfigCounter.config_counter self + 1;
      ConfigCounter._config_id := ConfigCounter._config_id self;
      ConfigCounter.configspace_ext := ConfigCounter.configspace_ext self |},
   store_dict (ConfigCounter._config_id self)
     (<[key := ConfigCounter.config_counter self]> (ConfigCounter.table_of self w)) w).

(** The counter is the number of entries, and every identifier in the table
    lies below it. *)
Definition dense (s : Registry.state) : Prop :=
  ConfigCounter.config_counter s.1 = Z.of_nat (size (ConfigCounter.table_of s.1 s.2))
  ∧ ∀ key i, ConfigCounter.table_of s.1 s.2 !! key = Some i
             → 0 ≤ i < ConfigCounter.config_counter s.1.

Definition minted_ids (configs : list Dict.t) (s : Registry.state) : list (option Z) :=
  (Registry.inserts configs s).1.
Definition after_inserts (configs : list Dict.t) (s : Registry.state) : Registry.state :=
  (Registry.inserts configs s).2.

(** Two states that a registry cannot tell apart. *)
Definition same_view (s1 s2 : Registry.state) : Prop :=
  s1.1 = s2.1 ∧ ConfigCounter.table_of s1.1 s1.2 = ConfigCounter.table_of s2.1 s2.2.

(** Two registries in one process. *)
Module TwoRegistries.

Abbreviation state := (ConfigCounter.t * ConfigCounter.t * World)%type.

Definition on_first {A} (m : M (ConfigCounter.t * World) A) : M state A :=
  λ '(a, b, w), let '(r, (a', w')) := m (a, w) in (r, (a', b, w')).

Definition on_second {A} (m : M (ConfigCounter.t * World) A) : M state A :=
  λ '(a, b, w), let '(r, (b', w')) := m (b, w) in (r, (a, b', w')).

(** [second.set_mutable_state(first.get_mutable_state())] *)
Definition restore : M state () :=
  state ← on_first ConfigCounter.get_mutable_state;
  on_second (ConfigCounter.set_mutable_state state).

(** The registry [s], and next to it a fresh registry built with
    [configspace_ext] into which the state of [s] has been restored. *)
Definition restored (s : Registry.state)
    (configspace_ext : option ExtendedConfiguration) : state :=
  let '(fresh_registry, w) := ConfigCounter.__init__ configspace_ext s.2 in
  (restore (s.1, fresh_registry, w)).2.

End TwoRegistries.

(** Every part of the block other than the evaluation count is text. *)
Definition block_wf (b : gmap string DebugLogPrinter.info) : Prop :=
  ∀ name v, b !! name = Some v → name ≠ "num_evals"
            → v = DebugLogPrinter.Text (DebugLogPrinter.str_info v).

(** The printer after a flush: no block open, no part left. *)
Definition flushed (self : DebugLogPrinter.t) : DebugLogPrinter.t :=
  {| DebugLogPrinter.config_counter := DebugLogPrinter.config_counter self;
     DebugLogPrinter.block_info := ∅;
     DebugLogPrinter.get_config_type := None |}.

(** The world after [logger.info] has been given [msgs], in order. *)
Definition log_all (msgs : list string) (w : World) : World :=
  {| dicts := dicts w; logged := logged w ++ msgs |}.

(** What one call does to the block: nothing, one field set, a block opened,
    or the block cleared. *)
Definition block_effect (c : Printer.call) (s s' : Printer.state) : Prop :=
  let kind := DebugLogPrinter.get_config_type s.1 in
  let kind' := DebugLogPrinter.get_config_type s'.1 in
  let b := DebugLogPrinter.block_info s.1 in
  let b' := DebugLogPrinter.block_info s'.1 in
  (kind' = kind ∧ b' = b)
  ∨ (∃ name v,
       kind' = kind ∧ b' = <[name := v]> b
       ∧ (name = "num_evals" ∨ v = DebugLogPrinter.Text (DebugLogPrinter.str_info v))
       ∧ (name = "final_config" → Printer.is_set_final_config c = true ∧ kind ≠ None))
  ∨ (∃ gc_type,
       c = Printer.StartGetConfig gc_type ∧ kind = None ∧ kind' = Some gc_type
       ∧ b' = b ∧ gc_type ∈ ["random"; "BO"])
  ∨ (kind' = None ∧ b' = ∅
     ∧ (kind = None ∨ (Printer.is_write_block c = true ∧ is_Some (b !! "final_config")))).

(** A block is open and [final_config] has not been stored. *)
Definition unfinalized (kind : string) (s : Printer.state) : Prop :=
  DebugLogPrinter.get_config_type s.1 = Some kind
  ∧ DebugLogPrinter.block_info s.1 !! "final_config" = None.

(** A block is open, [final_config] has been stored, and the parts are
    text. *)
Definition finalized (kind : string) (s : Printer.state) : Prop :=
  DebugLogPrinter.get_config_type s.1 = Some kind
  ∧ is_Some (DebugLogPrinter.block_info s.1 !! "final_config")
  ∧ block_wf (DebugLogPrinter.block_info s.1).

(** Between blocks nothing is left of [final_config]; the parts are text at
    all times. *)
Definition block_inv (s : Printer.state) : Prop :=
  block_wf (DebugLogPrinter.block_info s.1)
  ∧ (DebugLogPrinter.get_config_type s.1 = None
     → DebugLogPrinter.block_info s.1 !! "final_config" = None).

(** The globals that [find_class] resolves, and the exception for the
    others. *)
Definition allowed (module name : string) : Prop :=
  module = "builtins" ∧ name ∈ ["range"; "complex"; "set"; "frozenset"; "slice"].

Definition forbidden (module name : string) : exn :=
  UnpicklingError ("global '" +:+ module +:+ "." +:+ name +:+ "' is forbidden").

(** ** Sample configurations and states *)

Definition ext_r : option ExtendedConfiguration :=
  Some {| resource_attr_name := "resource" |}.
Definition x1_r5 : Dict.t := [("x", Py.VInt 1); ("resource", Py.VInt 5)].
Definition x1_r9 : Dict.t := [("x", Py.VInt 1); ("resource", Py.VInt 9)].
Definition x1 : Dict.t := [("x", Py.VInt 1)].
Definition x2 : Dict.t := [("x", Py.VInt 2)].
Definition x3 : Dict.t := [("x", Py.VInt 3)].
Definition x1_y2 : Dict.t := [("x", Py.VInt 1); ("y", Py.VInt 2)].

(** A registry with a resource attribute, before and after [x1_r5] is
    inserted. *)
Definition registry0 : Registry.state := ConfigCounter.__init__ ext_r world0.
Definition registry1 : Registry.state := (ConfigCounter.add_config x1_r5 registry0).2.

(** [registry1] exported into a fresh registry: one built with the same
    resource attribute, one built without. *)
Definition shared_pair : TwoRegistries.state :=
  TwoRegistries.restored registry1 ext_r.
Definition mismatched_pair : TwoRegistries.state :=
  TwoRegistries.restored registry1 None.

Definition printer0 : Printer.state := DebugLogPrinter.__init__ None world0.
Definition printer_r : Printer.state := DebugLogPrinter.__init__ ext_r world0.

(** A random block just opened. *)
Definition open_random : Printer.state :=
  Printer.run [Printer.StartGetConfig "random"] printer0.

(** A BO block in which [x1] has been finalized and the targets set. *)
Definition bo_before : list Printer.call := [Printer.StartGetConfig "BO"].
Definition bo_opened : Printer.state :=
  (DebugLogPrinter.set_final_config x1 (Printer.run bo_before printer0)).2.
Definition bo_calls : list Printer.call :=
  [Printer.SetTargets "[0.5]"; Printer.AppendExtra "note"].

(** A BO block opened on a printer with a resource attribute. *)
Definition open_bo_r : Printer.state :=
  Printer.run [Printer.StartGetConfig "BO"] printer_r.

(** Scenarios A and B of the specification, one after the other. *)
Definition scenario_A : list Printer.call :=
  [Printer.StartGetConfig "random"; Printer.SetFinalConfig x1_y2; Printer.WriteBlock].
Definition scenario_B : list Printer.call :=
  [Printer.StartGetConfig "BO"; Printer.SetFinalConfig x3;
   Printer.SetState {| candidate_evaluations := [x1_y2]; pending_candidates := [] |};
   Printer.SetTargets "[0.5]"; Printer.SetGpParams "{'kernel': 'matern'}";
   Printer.WriteBlock].

(** A registry taken back to a snapshot of itself: the state is exported,
    [first] is inserted, the exported state is restored, and [second] is
    inserted.  Answers the identifiers that the two inserts have minted. *)
Definition insert_restore_insert (first second : Dict.t)
  : M Registry.state (option Z * option Z) :=
  snapshot ← ConfigCounter.get_mutable_state;
  ConfigCounter.add_config first;;
  id1 ← gets (Registry.minted first);
  ConfigCounter.set_mutable_state snapshot;;
  ConfigCounter.add_config second;;
  id2 ← gets (Registry.minted second);
  mret (id1, id2).

(** ** Further notions: the registry and the printer along call sequences *)

(** A registry state reached from a fresh registry by a sequence of calls. *)
Definition registry_reachable (s : Registry.state) : Prop :=
  ∃ ext w cs, s = (Registry.run cs (ConfigCounter.__init__ ext w)).2.

(** No two keys of the table hold the same identifier. *)
Definition table_injective (s : Registry.state) : Prop :=
  ∀ k1 k2 i,
    ConfigCounter.table_of s.1 s.2 !! k1 = Some i →
    ConfigCounter.table_of s.1 s.2 !! k2 = Some i → k1 = k2.

(** The configuration has an identifier in the registry. *)
Definition known (self : ConfigCounter.t) (w : World) (config : Dict.t) : Prop :=
  is_Some (ConfigCounter.table_of self w
             !! key_of config (ConfigCounter.configspace_ext self)).

(** The text that [config_id] gives for a known configuration. *)
Definition id_text (self : ConfigCounter.t) (w : World) (config : Dict.t) : string :=
  identifier
    (default 0 (ConfigCounter.table_of self w
                  !! key_of config (ConfigCounter.configspace_ext self)))
    (resource_of config (ConfigCounter.configspace_ext self)).

(** The text stored by [set_state]. *)
Definition state_text (self : ConfigCounter.t) (w : World) (state : TuningJobState)
  : string :=
  "Labeled: " +:+ Py.join ", " (id_text self w <$> candidate_evaluations state)
  +:+ ". Pending: " +:+ Py.join ", " (id_text self w <$> pending_candidates state).

(** The registry of a printer and the store, as a registry state. *)
Definition registry_of (s : Printer.state) : Registry.state :=
  (DebugLogPrinter.config_counter s.1, s.2).

(** What one call does to the registry of the printer: it leaves counter
    and tables alone, or inserts one key, or starts a fresh registry. *)
Definition registry_effect (s s' : Printer.state) : Prop :=
  (DebugLogPrinter.config_counter s'.1 = DebugLogPrinter.config_counter s.1
   ∧ dicts s'.2 = dicts s.2)
  ∨ (∃ key,
       ConfigCounter.table_of (DebugLogPrinter.config_counter s.1) s.2 !! key = None
       ∧ registry_of s' = inserted key (DebugLogPrinter.config_counter s.1) s.2)
  ∨ (∃ ext, registry_of s' = ConfigCounter.__init__ ext s.2).

Definition restores_snapshot (c : Printer.call) : bool :=
  match c with Printer.SetMutableState _ => true | _ => false end.

(** One iteration of a search loop that reports nothing but the
    configuration it returns: open a block, finalize, flush. *)
Definition iteration (kc : string * Dict.t) : list Printer.call :=
  [Printer.StartGetConfig kc.1; Printer.SetFinalConfig kc.2; Printer.WriteBlock].

(** What that iteration gives to the logger when the next identifier is
    [id]. *)
Definition iteration_log (id : Z) (kc : string * Dict.t) : list string :=
  let b : gmap string DebugLogPrinter.info :=
    {["final_config" :=
        DebugLogPrinter.Text (Py.join Py.nl (DebugLogPrinter.entries kc.2))]} in
  ["Starting get_config[" +:+ kc.1 +:+ "] for config_id " +:+ Py.str_int id]
  ++ Report.diagnostics kc.1 b
  ++ [Py.join Py.nl (Report.parts id kc.1 b)].

Fixpoint iterations_log (id : Z) (l : list (string * Dict.t)) : list string :=
  match l with
  | [] => []
  | kc :: l' => iteration_log id kc ++ iterations_log (id + 1) l'
  end.

(** ** load_pkl: [restricted_loads], [load] and [load_with_fn] *)

Module LoadPkl.

Abbreviation bytes := (list Byte.byte).

(** What the loader can raise: [RecursionError], an exception of
    [RestrictedUnpickler], [EOFError] of the unpickler, or an exception of
    the code it calls outside this file. *)
Inductive raised : Type :=
  | RecursionError (msg : string)
  | EOFError
  | Unpickling (e : exn)
  | Foreign (cls msg : string).

Inductive result (A : Type) : Type :=
  | Ok (a : A)
  | Err (e : raised).
Arguments Ok {A} a.
Arguments Err {A} e.

(** What [load_pkl] uses of other modules and of the standard library.
    [Obj] is the type of unpickled objects. *)
Record Env (Obj : Type) : Type := {
  (** [s3_utils.is_s3_url(path)] *)
  is_s3_url : string → bool;
  (** [load_pointer.get_pointer_content(path)] *)
  get_pointer_content : string → result string;
  (** [s3.Bucket(bucket).Object(prefix).get()['Body'].read()] for the bucket
      and prefix of [s3_utils.s3_path_to_bucket_prefix(path)] *)
  s3_body : string → result bytes;
  (** [open(path, 'rb')]: the bytes of the file *)
  open_rb : string → result bytes;
  (** [pickle.Unpickler.load] with the given [find_class], on the bytes
      left in the stream *)
  unpickler_load : (string → string → outcome RestrictedUnpickler.py_object)
                   → bytes → result Obj;
  (** [pickle.load] and [pickle.loads], on the bytes left in the stream *)
  pickle_load : bytes → result Obj
}.
Arguments is_s3_url {Obj} _ _.
Arguments get_pointer_content {Obj} _ _.
Arguments s3_body {Obj} _ _.
Arguments open_rb {Obj} _ _.
Arguments unpickler_load {Obj} _ _ _.
Arguments pickle_load {Obj} _ _.

(** A binary file object: its bytes and the read position. *)
Record stream : Type := {
  data : bytes;
  pos : nat
}.

(** The bytes from the read position on. *)
Definition rest (fin : stream) : bytes := drop (pos fin) (data fin).

(** [fin.read()]: everything that is left; the position moves to the end. *)
Definition read (fin : stream) : bytes * stream :=
  (rest fin, {| data := data fin; pos := length (data fin) |}).

(** [s.endswith(suffix)] *)
Definition endswith (s suffix : string) : bool :=
  let n := String.length s in
  let k := String.length suffix in
  (k <=? n)%nat && bool_decide (String.substring (n - k) k s = suffix).

Section with_env.

Context {Obj : Type} (env : Env Obj).

(** [restricted_loads(s)] *)
Definition restricted_loads (s : bytes) : result Obj :=
  unpickler_load env RestrictedUnpickler.find_class s.

(** ['Loading: %s' % path] given to [logger.log(15, ...)] when [verbose]. *)
Definition loading (verbose : bool) (path : string) : list string :=
  if verbose then ["Loading: " +:+ path] else [].

(** The format after the first [if]/[elif] of [load] and [load_with_fn]. *)
Definition effective_format (path : string) (format : option string) : option string :=
  if endswith path ".pointer" then Some "pointer"
  else if is_s3_url env path then Some "s3"
  else format.

(** [load(path, format, verbose)].  [depth] is the number of calls the
    interpreter still allows; a call beyond it raises [RecursionError].  The
    second component holds the records given to the logger. *)
Fixpoint load (depth : nat) (path : string) (format : option string)
    (verbose : bool) : result Obj * list string :=
  match depth with
  | O => (Err (RecursionError "maximum recursion depth exceeded"), [])
  | S depth' =>
      let format := effective_format path format in
      if bool_decide (format = Some "pointer") then
        match get_pointer_content env path with
        | Err e => (Err e, [])
        | Ok content_path =>
            if bool_decide (content_path = path)
            then (Err (RecursionError ("content_path == path! : " +:+ path)), [])
            else load depth' content_path None true
        end
      else if bool_decide (format = Some "s3") then
        match s3_body env path with
        | Err e => (Err e, loading verbose path)
        | Ok body => (pickle_load env body, loading verbose path)
        end
      else
        match open_rb env path with
        | Err e => (Err e, loading verbose path)
        | Ok content =>
            let fin := {| data := content; pos := 0 |} in
            let '(s, fin) := read fin in
            match restricted_loads s with
            | Err e => (Err e, loading verbose path)
            | Ok _ => (pickle_load env (rest fin), loading verbose path)
            end
        end
  end.

(** [load_with_fn(path, pickle_fn, format, verbose)]; [pickle_fn] is given
    a file object and is taken as a function of the bytes left in it. *)
Fixpoint load_with_fn (depth : nat) (path : string) (pickle_fn : bytes → result Obj)
    (format : option string) (verbose : bool) : result Obj * list string :=
  match depth with
  | O => (Err (RecursionError "maximum recursion depth exceeded"), [])
  | S depth' =>
      let format := effective_format path format in
      if bool_decide (format = Some "pointer") then
        match get_pointer_content env path with
        | Err e => (Err e, [])
        | Ok content_path =>
            if bool_decide (content_path = path)
            then (Err (RecursionError ("content_path == path! : " +:+ path)), [])
            else load_with_fn depth' content_path pickle_fn None true
        end
      else if bool_decide (format = Some "s3") then
        match s3_body env path with
        | Err e => (Err e, loading verbose path)
        | Ok body =>
            let buff := {| data := body; pos := 0 |} in
            (pickle_fn (rest buff), loading verbose path)
        end
      else
        match open_rb env path with
        | Err e => (Err e, loading verbose path)
        | Ok content =>
            let fin := {| data := content; pos := 0 |} in
            (pickle_fn (rest fin), loading verbose path)
        end
  end.

(** [ps] is a chain of pointer files: each path ends in [.pointer], and
    its content is the next path of the chain, the content of the last one
    being [target]; no pointer holds its own path. *)
Fixpoint pointer_chain (ps : list string) (target : string) : Prop :=
  match ps with
  | [] => True
  | p :: ps' =>
      endswith p ".pointer" = true
      ∧ get_pointer_content env p = Ok (hd target ps')
      ∧ hd target ps' ≠ p
      ∧ pointer_chain ps' target
  end.

End with_env.

(** Two environments that differ at most in the unpickler that takes a
    [find_class]. *)
Definition same_but_unpickler {Obj} (env env' : Env Obj) : Prop :=
  is_s3_url env = is_s3_url env'
  ∧ get_pointer_content env = get_pointer_content env'
  ∧ s3_body env = s3_body env'
  ∧ open_rb env = open_rb env'
  ∧ pickle_load env = pickle_load env'.

(** A sample environment: two pointer files that hold each other's path, a
    pointer to a local file, and an unpickler that accepts one byte
    string. *)
Definition sample_env : Env bytes := {|
  is_s3_url := λ path, String.prefix "s3://" path;
  get_pointer_content := λ path,
    if bool_decide (path = "a.pointer") then Ok "b.pointer"
    else if bool_decide (path = "b.pointer") then Ok "a.pointer"
    else if bool_decide (path = "c.pointer") then Ok "model.pkl"
    else Err (Foreign "FileNotFoundError" path);
  s3_body := λ path, Err (Foreign "ClientError" path);
  open_rb := λ path,
    if bool_decide (path = "model.pkl") then Ok [Byte.x80; Byte.x04; Byte.x4e; Byte.x2e]
    else Err (Foreign "FileNotFoundError" path);
  unpickler_load := λ find_class s, Ok s;
  pickle_load := λ s,
    match s with
    | [] => Err EOFError
    | _ => Ok s
    end
|}.

End LoadPkl.

(** * Properties *)

(** ** Dictionaries and the sort of their items *)

Section dict_facts.

Implicit Types (d : Dict.t) (e : string * Py.value) (name : string).

Lemma string_leb_trans (s1 s2 s3 : string) :
  String.leb s1 s2 = true → String.leb s2 s3 = true → String.leb s1 s3 = true.
Proof.
  unfold String.leb. revert s2 s3.
  induction s1 as [|a s1 IH]; intros [|b s2] [|c s3]; simpl; try done.
  unfold Ascii.compare.
  destruct (N.compare_spec (N_of_ascii a) (N_of_ascii b)) as [Hab|Hab|Hab];
    destruct (N.compare_spec (N_of_ascii b) (N_of_ascii c)) as [Hbc|Hbc|Hbc];
    destruct (N.compare_spec (N_of_ascii a) (N_of_ascii c)) as [Hac|Hac|Hac];
    try done; try lia.
  apply IH.
Qed.

#[local] Instance name_le_trans : Transitive name_le.
Proof. intros e1 e2 e3. apply string_leb_trans. Qed.

Lemma insert_item_perm e d : Dict.insert_item e d ≡ₚ e :: d.
Proof.
  induction d as [|e' d IH]; simpl; [done|].
  destruct (String.leb e.1 e'.1); [done|].
  rewrite IH. apply Permutation_swap.
Qed.

Lemma sorted_items_perm d : Dict.sorted_items d ≡ₚ d.
Proof.
  induction d as [|e d IH]; simpl; [done|].
  by rewrite insert_item_perm, IH.
Qed.

Lemma insert_item_sorted e d :
  Sorted name_le d → Sorted name_le (Dict.insert_item e d).
Proof.
  induction 1 as [|e' d Hd IH Hhd]; simpl.
  { repeat constructor. }
  destruct (String.leb e.1 e'.1) eqn:Hle.
  { repeat constructor; done. }
  constructor; [done|].
  assert (name_le e' e) as He'.
  { destruct (String.leb_total e.1 e'.1) as [?|?]; [congruence|done]. }
  destruct Hhd as [|e'' d' Hle']; simpl.
  { by constructor. }
  destruct (String.leb e.1 e''.1); by constructor.
Qed.

Lemma sorted_items_sorted d : Sorted name_le (Dict.sorted_items d).
Proof.
  induction d as [|e d IH]; simpl; [constructor|]. by apply insert_item_sorted.
Qed.

Lemma get_Some_elem_of name v d : Dict.get name d = Some v → (name, v) ∈ d.
Proof.
  induction d as [|[k x] d IH]; simpl; [done|].
  case_decide; intros; simplify_eq; [left | right; auto].
Qed.

Lemma elem_of_get name v d : Dict.wf d → (name, v) ∈ d → Dict.get name d = Some v.
Proof.
  unfold Dict.wf.
  induction d as [|[k x] d IH]; simpl; intros Hnd Hin; [by inv Hin|].
  apply NoDup_cons in Hnd as [Hk Hnd].
  apply elem_of_cons in Hin as [?|Hin]; simplify_eq.
  { by rewrite decide_True. }
  case_decide; [|by auto]. subst.
  destruct Hk. apply list_elem_of_fmap. by exists (name, v).
Qed.

Lemma wf_same_name e1 e2 d : Dict.wf d → e1 ∈ d → e2 ∈ d → e1.1 = e2.1 → e1 = e2.
Proof.
  destruct e1 as [k1 v1], e2 as [k2 v2]; simpl. intros Hwf H1 H2 ->.
  apply (elem_of_get _ _ _ Hwf) in H1, H2. congruence.
Qed.

Lemma same_perm d1 d2 : Dict.wf d1 → Dict.wf d2 → Dict.same d1 d2 → d1 ≡ₚ d2.
Proof.
  intros Hwf1 Hwf2 Hsame.
  apply NoDup_Permutation; [by eapply NoDup_fmap_1..|].
  intros [k v]; split; intros Hin.
  - apply get_Some_elem_of. rewrite <-Hsame. by apply elem_of_get.
  - apply get_Some_elem_of. rewrite Hsame. by apply elem_of_get.
Qed.

Lemma sorted_items_same d1 d2 :
  Dict.wf d1 → Dict.wf d2 → Dict.same d1 d2 →
  Dict.sorted_items d1 = Dict.sorted_items d2.
Proof.
  intros Hwf1 Hwf2 Hsame.
  assert (Dict.sorted_items d1 ≡ₚ Dict.sorted_items d2) as Hperm.
  { rewrite !sorted_items_perm. by apply same_perm. }
  eapply (Sorted_unique_strong name_le); [|apply sorted_items_sorted..|done].
  intros e1 e2 H1 H2 Hle1 Hle2.
  apply (wf_same_name e1 e2 d1); [done|..].
  - by rewrite <-(sorted_items_perm d1).
  - by rewrite <-(sorted_items_perm d1), Hperm.
  - by apply String.leb_antisym.
Qed.

Lemma get_remove name n d :
  Dict.get n (Dict.remove name d) = if decide (n = name) then None else Dict.get n d.
Proof.
  unfold Dict.remove.
  induction d as [|[k v] d IH].
  { simpl. by case_decide. }
  rewrite filter_cons.
  destruct (decide ((k, v).1 ≠ name)) as [Hk|Hk]; simpl in *.
  - rewrite IH. repeat case_decide; simplify_eq; done.
  - apply dec_stable in Hk. subst. rewrite IH. repeat case_decide; simplify_eq; done.
Qed.

Lemma remove_wf name d : Dict.wf d → Dict.wf (Dict.remove name d).
Proof.
  unfold Dict.wf, Dict.remove.
  induction d as [|[k v] d IH]; [done|].
  rewrite fmap_cons, NoDup_cons. intros [Hk Hnd]. rewrite filter_cons.
  case_decide; [|by auto].
  rewrite fmap_cons. apply NoDup_cons; split; [|by auto]. simpl in *.
  intros Hin. apply Hk.
  apply list_elem_of_fmap in Hin as [[k' v'] [? Hin]]; simplify_eq/=.
  apply list_elem_of_filter in Hin as [_ Hin].
  apply list_elem_of_fmap. by exists (k', v').
Qed.

Lemma remove_absent name d : Dict.get name d = None → Dict.remove name d = d.
Proof.
  unfold Dict.remove.
  induction d as [|[k v] d IH]; [done|]. simpl Dict.get.
  case_decide; [done|]. intros Hget. rewrite filter_cons.
  rewrite decide_True by done. by rewrite IH.
Qed.

End dict_facts.

(** ** The text of a tuple determines its items *)

Section key_injective.

Implicit Types (s r u : string) (c q : ascii) (v : Py.value).

Lemma string_app_cons c s r : String c s +:+ r = String c (s +:+ r).
Proof. done. Qed.

Lemma string_app_nil r : EmptyString +:+ r = r.
Proof. done. Qed.

Lemma string_app_assoc s1 s2 s3 : (s1 +:+ s2) +:+ s3 = s1 +:+ (s2 +:+ s3).
Proof. induction s1 as [|c s1 IH]; [done|]. by rewrite !string_app_cons, IH. Qed.

Lemma head_app s r : s ≠ EmptyString → head (s +:+ r) = head s.
Proof. by destruct s. Qed.

(** *** Integers *)

Lemma pretty_N_char_numeric (x : N) : numeric (pretty_N_char x) = true.
Proof. unfold pretty_N_char. by repeat case_match. Qed.

Lemma pretty_N_go_numeric (x : N) s :
  all_numeric s = true → all_numeric (pretty_N_go x s) = true.
Proof.
  revert s. induction (N.lt_wf_0 x) as [x _ IH]; intros s Hs.
  assert (x = 0 ∨ 0 < x)%N as [->|?] by lia.
  - by rewrite pretty_N_go_0.
  - rewrite pretty_N_go_step by done. apply IH; [by apply N.div_lt|].
    simpl. by rewrite pretty_N_char_numeric.
Qed.

Lemma pretty_N_go_nonempty (x : N) s :
  s ≠ EmptyString → pretty_N_go x s ≠ EmptyString.
Proof.
  revert s. induction (N.lt_wf_0 x) as [x _ IH]; intros s Hs.
  assert (x = 0 ∨ 0 < x)%N as [->|?] by lia.
  - by rewrite pretty_N_go_0.
  - rewrite pretty_N_go_step by done. apply IH; [by apply N.div_lt|done].
Qed.

Lemma pretty_N_numeric (x : N) :
  all_numeric (pretty x) = true ∧ pretty x ≠ EmptyString.
Proof.
  unfold pretty, pretty_N. case_decide as Hx; [done|].
  split; [by apply pretty_N_go_numeric|].
  rewrite pretty_N_go_step by lia. by apply pretty_N_go_nonempty.
Qed.

Lemma str_int_numeric (z : Z) :
  all_numeric (Py.str_int z) = true ∧ Py.str_int z ≠ EmptyString.
Proof.
  unfold Py.str_int, pretty, pretty_Z. destruct z as [|p|p]; [done|..].
  - apply (pretty_N_numeric (N.pos p)).
  - destruct (pretty_N_numeric (N.pos p)) as [Hn _]. split; [|done].
    rewrite string_app_cons, string_app_nil. simpl. apply Hn.
Qed.

Lemma delimited_not_numeric c r : delimited (String c r) → numeric c = false.
Proof. intros (c' & r' & [= -> ->] & [->| ->]); done. Qed.

Lemma numeric_prefix u u' r r' :
  all_numeric u = true → all_numeric u' = true → delimited r → delimited r' →
  u +:+ r = u' +:+ r' → u = u' ∧ r = r'.
Proof.
  intros Hu Hu' Hr Hr'. revert u' Hu'.
  induction u as [|c u IH]; intros [|c' u'] Hu'; rewrite ?string_app_cons, ?string_app_nil.
  - done.
  - intros ->. apply delimited_not_numeric in Hr.
    simpl in Hu'. by rewrite Hr in Hu'.
  - intros <-. apply delimited_not_numeric in Hr'.
    simpl in Hu. by rewrite Hr' in Hu.
  - intros [= <- Heq]. simpl in Hu, Hu'.
    apply andb_true_iff in Hu as [_ Hu]. apply andb_true_iff in Hu' as [_ Hu'].
    destruct (IH Hu u' Hu' Heq) as [-> ->]. done.
Qed.

(** *** Text *)

Lemma hex_digit_inj (x y : N) :
  (x < 16)%N → (y < 16)%N → Py.hex_digit x = Py.hex_digit y → x = y.
Proof. compute; intros. by repeat (discriminate || case_match). Qed.

Lemma hex_digits_inj (n n' : N) :
  (n < 256)%N → (n' < 256)%N →
  Py.hex_digit (n / 16) = Py.hex_digit (n' / 16) →
  Py.hex_digit (n mod 16) = Py.hex_digit (n' mod 16) → n = n'.
Proof.
  intros Hn Hn' Hhi Hlo.
  apply hex_digit_inj in Hhi;
    [|apply N.Div0.div_lt_upper_bound; lia|apply N.Div0.div_lt_upper_bound; lia].
  apply hex_digit_inj in Hlo; [|by apply N.mod_lt..].
  rewrite (N.div_mod n 16), (N.div_mod n' 16) by done. lia.
Qed.

Lemma N_of_ascii_inj c c' : N_of_ascii c = N_of_ascii c' → c = c'.
Proof. intros H. by rewrite <-(ascii_N_embedding c), <-(ascii_N_embedding c'), H. Qed.

Lemma quote_cases q :
  q ∈ [Py.squote; Py.dquote] → q = Py.squote ∨ q = Py.dquote.
Proof. rewrite !elem_of_cons, elem_of_nil. tauto. Qed.

(** An escaped character never starts with the quote. *)
Lemma repr_char_not_quote q c X r :
  q ∈ [Py.squote; Py.dquote] → Py.repr_char q c +:+ X ≠ String q r.
Proof.
  intros [-> | ->]%quote_cases; unfold Py.repr_char;
    repeat case_decide; try case_match; rewrite ?string_app_cons, ?string_app_nil;
    intros ?; simplify_eq.
Qed.

(** The escapes form a prefix code. *)
Lemma repr_char_prefix q c c' X X' :
  q ∈ [Py.squote; Py.dquote] →
  Py.repr_char q c +:+ X = Py.repr_char q c' +:+ X' → c = c' ∧ X = X'.
Proof.
  intros [-> | ->]%quote_cases; unfold Py.repr_char;
    repeat case_decide; repeat case_match; rewrite ?string_app_cons, ?string_app_nil;
    intros ?; simplify_eq; try done.
  all: split; [|done]; apply N_of_ascii_inj;
    apply hex_digits_inj; auto using N_ascii_bounded.
Qed.

Lemma repr_body_delimited q s s' r r' :
  q ∈ [Py.squote; Py.dquote] →
  Py.repr_body q s +:+ String q r = Py.repr_body q s' +:+ String q r' →
  s = s' ∧ r = r'.
Proof.
  intros Hq. revert s'.
  induction s as [|c s IH]; intros [|c' s']; cbn [Py.repr_body];
    rewrite ?string_app_assoc, ?string_app_nil.
  - by intros [= ->].
  - intros Heq. symmetry in Heq. by apply repr_char_not_quote in Heq.
  - intros Heq. by apply repr_char_not_quote in Heq.
  - intros Heq. apply repr_char_prefix in Heq as [-> Heq]; [|done].
    by destruct (IH _ Heq) as [-> ->].
Qed.

Lemma quote_of_elem s : Py.quote_of s ∈ [Py.squote; Py.dquote].
Proof. unfold Py.quote_of. case_match; [by right; left|by left]. Qed.

Lemma repr_str_eq s :
  Py.repr_str s
  = String (Py.quote_of s) (Py.repr_body (Py.quote_of s) s +:+ String (Py.quote_of s) EmptyString).
Proof. done. Qed.

Lemma repr_str_delimited s s' r r' :
  Py.repr_str s +:+ r = Py.repr_str s' +:+ r' → s = s' ∧ r = r'.
Proof.
  rewrite !repr_str_eq, !string_app_cons, !string_app_assoc, !string_app_cons, !string_app_nil.
  intros [= Hq Heq]. rewrite <-Hq in Heq.
  eapply repr_body_delimited; [apply quote_of_elem|done].
Qed.

(** *** Items *)

Lemma head_repr v r :
  ∃ c, head (Py.repr v +:+ r) = Some c ∧ kind_of_head c = Some (kind_of_value v).
Proof.
  destruct v as [z|b|s]; cbn [Py.repr kind_of_value].
  - destruct (str_int_numeric z) as [Hnum Hne].
    rewrite head_app by done.
    destruct (Py.str_int z) as [|c u]; [done|].
    exists c. split; [done|]. simpl in Hnum. apply andb_true_iff in Hnum as [Hc _].
    unfold kind_of_head. by rewrite Hc.
  - destruct b; [by exists "T"%char|by exists "F"%char].
  - rewrite repr_str_eq, string_app_cons. exists (Py.quote_of s). split; [done|].
    by destruct (quote_cases _ (quote_of_elem s)) as [-> | ->].
Qed.

Lemma repr_delimited v v' r r' :
  delimited r → delimited r' →
  Py.repr v +:+ r = Py.repr v' +:+ r' → v = v' ∧ r = r'.
Proof.
  intros Hr Hr' Heq.
  assert (kind_of_value v = kind_of_value v') as Hkind.
  { destruct (head_repr v r) as (c & Hc & Hk), (head_repr v' r') as (c' & Hc' & Hk').
    rewrite Heq in Hc. congruence. }
  destruct v as [z|b|s], v' as [z'|b'|s']; try done; cbn [Py.repr] in Heq.
  - apply numeric_prefix in Heq as [Heq ->]; [|apply str_int_numeric..|done|done].
    apply (inj pretty) in Heq. by subst.
  - destruct b, b'; by simplify_eq/=.
  - by apply repr_str_delimited in Heq as [-> ->].
Qed.

(** *** Tuples *)

Lemma delimited_comma r : delimited (String "," r).
Proof. exists ","%char, r. split; [done|by left]. Qed.

Lemma delimited_paren r : delimited (String ")" r).
Proof. exists ")"%char, r. split; [done|by right]. Qed.

Lemma items_single v : items [v] = Py.repr v +:+ ")".
Proof. done. Qed.

Lemma items_cons v v' l :
  items (v :: v' :: l) = Py.repr v +:+ String "," (String " " (items (v' :: l))).
Proof.
  unfold items, Py.join. rewrite !fmap_cons.
  change (String.concat ", " (Py.repr v :: Py.repr v' :: (Py.repr <$> l)))
    with (Py.repr v +:+ ", " +:+ String.concat ", " (Py.repr v' :: (Py.repr <$> l))).
  by rewrite !string_app_assoc.
Qed.

Lemma items_inj l l' : l ≠ [] → l' ≠ [] → items l = items l' → l = l'.
Proof.
  revert l'. induction l as [|v l IH]; intros [|v' l'] Hl Hl'; try done.
  destruct l as [|w l], l' as [|w' l']; rewrite ?items_single, ?items_cons; intros Heq.
  - by apply repr_delimited in Heq as [-> _]; auto using delimited_paren.
  - by apply repr_delimited in Heq as [_ ?]; auto using delimited_paren, delimited_comma.
  - by apply repr_delimited in Heq as [_ ?]; auto using delimited_paren, delimited_comma.
  - apply repr_delimited in Heq as [-> [= Heq]]; auto using delimited_comma.
    f_equal. by apply IH.
Qed.

Lemma str_tuple_eq t :
  Py.str_tuple t
  = match t with
    | [] => "()"
    | [v] => String "(" (Py.repr v +:+ ",)")
    | _ => String "(" (items t)
    end.
Proof. by destruct t as [|v [|w t]]. Qed.

Lemma repr_not_paren v r r' : Py.repr v +:+ r ≠ String ")" r'.
Proof.
  intros Heq. destruct (head_repr v r) as (c & Hc & Hk).
  rewrite Heq in Hc. by simplify_eq/=.
Qed.

Lemma str_tuple_inj t t' : Py.str_tuple t = Py.str_tuple t' → t = t'.
Proof.
  rewrite !str_tuple_eq.
  destruct t as [|v [|w t]], t' as [|v' [|w' t']]; rewrite ?items_cons;
    intros Heq; try done; injection Heq as Heq.
  - symmetry in Heq. by apply repr_not_paren in Heq.
  - symmetry in Heq. by apply repr_not_paren in Heq.
  - by apply repr_not_paren in Heq.
  - by apply repr_delimited in Heq as [-> _]; auto using delimited_comma.
  - by apply repr_delimited in Heq as [_ ?]; auto using delimited_comma.
  - by apply repr_not_paren in Heq.
  - by apply repr_delimited in Heq as [_ ?]; auto using delimited_comma.
  - apply repr_delimited in Heq as [-> [= Heq]]; auto using delimited_comma.
    f_equal. by apply items_inj.
Qed.

End key_injective.

(** ** The canonical key *)

Lemma to_key_eq config ext :
  _to_key config ext = (key_of config ext, stripped config ext, resource_of config ext).
Proof. unfold key_of, stripped, resource_of. by destruct (_to_key config ext) as [[??]?]. Qed.

Lemma resource_of_eq config ext :
  resource_of config ext = e ← ext; Dict.get (resource_attr_name e) config.
Proof.
  unfold resource_of, _to_key. destruct ext as [e|]; simpl; [|done].
  by destruct (Dict.get _ config).
Qed.

Lemma stripped_eq config ext :
  stripped config ext =
    match ext with
    | Some e => Dict.remove (resource_attr_name e) config
    | None => config
    end.
Proof.
  unfold stripped, _to_key, remove_resource. destruct ext as [e|]; simpl; [|done].
  destruct (Dict.get _ config) eqn:Hget; simpl; [done|].
  by rewrite remove_absent.
Qed.

Lemma key_of_eq config ext :
  key_of config ext = Py.str_tuple (Dict.sorted_items (stripped config ext)).*2.
Proof.
  unfold key_of, stripped, _to_key. destruct ext as [e|]; simpl; [|done].
  by destruct (Dict.get _ config).
Qed.

Lemma stripped_wf config ext : Dict.wf config → Dict.wf (stripped config ext).
Proof. rewrite stripped_eq. destruct ext; [apply remove_wf|done]. Qed.

Lemma key_of_same c1 c2 ext :
  Dict.wf c1 → Dict.wf c2 →
  Dict.same (stripped c1 ext) (stripped c2 ext) → key_of c1 ext = key_of c2 ext.
Proof.
  intros ???. rewrite !key_of_eq.
  by rewrite (sorted_items_same (stripped c1 ext) (stripped c2 ext))
    by auto using stripped_wf.
Qed.

(** The base configuration carries no resource: its key is the one of the
    configuration it comes from. *)
Lemma stripped_stripped config ext :
  _to_key (stripped config ext) ext
  = (key_of config ext, stripped config ext, None).
Proof.
  rewrite to_key_eq. rewrite key_of_eq, (key_of_eq config).
  assert (resource_of (stripped config ext) ext = None) as Hres.
  { rewrite resource_of_eq, stripped_eq. destruct ext as [e|]; simpl; [|done].
    rewrite get_remove. by rewrite decide_True. }
  assert (stripped (stripped config ext) ext = stripped config ext) as ->; [|by rewrite Hres].
  rewrite (stripped_eq (stripped _ _)). destruct ext as [e|]; [|done].
  apply remove_absent. by rewrite resource_of_eq in Hres.
Qed.

Example key_sorted_by_name :
  key_of [("y", Py.VInt 2); ("x", Py.VInt 1)] None = "(1, 2)"
  ∧ _to_key x1_r5 ext_r = ("(1,)", x1, Some (Py.VInt 5))
  ∧ key_of [("b", Py.VBool true); ("a", Py.VStr "it's"); ("c", Py.VInt (-3))] None
    = "(" +:+ String Py.dquote ("it's" +:+ String Py.dquote ", True, -3)").
Proof. vm_compute. split_and!; reflexivity. Qed.

(** C1 (amended).  For every configuration, [_to_key] removes the resource
    entry when an extractor is supplied and the entry is there, sorts the
    remaining entries by parameter name, and renders the values in that
    order, and only the values, as the text of a tuple.  Hence two
    configurations have the same key exactly when their values, taken in
    the order of the names, are the same; in particular when their
    resource-stripped mappings are identical. *)
Theorem to_key_canonical (c1 c2 : Dict.t) (ext : option ExtendedConfiguration) :
  Dict.wf c1 → Dict.wf c2 →
  (∀ name, Dict.get name (stripped c1 ext)
           = if bool_decide (Some name = resource_attr_name <$> ext)
             then None else Dict.get name c1)
  ∧ Dict.sorted_items (stripped c1 ext) ≡ₚ stripped c1 ext
  ∧ Sorted name_le (Dict.sorted_items (stripped c1 ext))
  ∧ key_of c1 ext = Py.str_tuple (Dict.sorted_items (stripped c1 ext)).*2
  ∧ (key_of c1 ext = key_of c2 ext
     ↔ (Dict.sorted_items (stripped c1 ext)).*2
       = (Dict.sorted_items (stripped c2 ext)).*2)
  ∧ (Dict.same (stripped c1 ext) (stripped c2 ext) → key_of c1 ext = key_of c2 ext).
Proof.
  intros Hwf1 Hwf2. split_and!.
  - intros name. rewrite stripped_eq. destruct ext as [e|]; simpl; [|done].
    rewrite get_remove. case_decide; case_bool_decide; simplify_eq; done.
  - apply sorted_items_perm.
  - apply sorted_items_sorted.
  - apply key_of_eq.
  - rewrite !key_of_eq. split; [apply str_tuple_inj|by intros ->].
  - by apply key_of_same.
Qed.

Lemma to_key_canonical_witness :
  key_of [("y", Py.VInt 2); ("x", Py.VInt 1); ("r", Py.VInt 9)]
         (Some {| resource_attr_name := "r" |})
  = key_of [("r", Py.VInt 3); ("x", Py.VInt 1); ("y", Py.VInt 2)]
           (Some {| resource_attr_name := "r" |}).
Proof.
  apply (to_key_canonical
           [("y", Py.VInt 2); ("x", Py.VInt 1); ("r", Py.VInt 9)]
           [("r", Py.VInt 3); ("x", Py.VInt 1); ("y", Py.VInt 2)]
           (Some {| resource_attr_name := "r" |})).
  - apply (bool_decide_unpack _). vm_compute. exact I.
  - apply (bool_decide_unpack _). vm_compute. exact I.
  - intros name. vm_compute. repeat case_match; done.
Defined.

(** C1 does not hold as stated: the names are not part of the key, so two
    configurations that differ only in a parameter name share their key. *)
Lemma to_key_drops_names :
  key_of [("x", Py.VInt 1)] None = "(1,)"
  ∧ key_of [("y", Py.VInt 1)] None = "(1,)"
  ∧ ¬ (key_of [("x", Py.VInt 1)] None = key_of [("y", Py.VInt 1)] None
       ↔ Dict.same (stripped [("x", Py.VInt 1)] None) (stripped [("y", Py.VInt 1)] None)).
Proof.
  split_and!; [by vm_compute..|].
  intros [Hsame _]. specialize (Hsame eq_refl "x"). by vm_compute in Hsame.
Qed.

Ltac run_M :=
  cbv beta iota zeta delta
    [mbind M_bind mret M_ret gets modify raise py_assert
     DebugLogPrinter.in_BO_block DebugLogPrinter.set_info
     DebugLogPrinter.logger_info DebugLogPrinter.on_config_counter fst snd].

(** ** The registry *)

Section registry.

Import ConfigCounter.

Implicit Types (self : ConfigCounter.t) (w : World) (config : Dict.t).

Lemma table_of_store self self' w d :
  _config_id self' = _config_id self →
  table_of self' (store_dict (_config_id self) d w) = d.
Proof.
  intros Heq. unfold table_of, deref, store_dict; simpl.
  rewrite Heq. apply lookup_total_insert_eq.
Qed.

Lemma table_of_inserted key self w :
  table_of (inserted key self w).1 (inserted key self w).2
  = <[key := config_counter self]> (table_of self w).
Proof. by apply table_of_store. Qed.

Lemma add_config_Some self w config i :
  table_of self w !! key_of config (configspace_ext self) = Some i →
  add_config config (self, w) = (Raise (AssertionError ConfigAlreadyAssigned), (self, w)).
Proof. intros Hi. unfold add_config. rewrite to_key_eq. by rewrite Hi. Qed.

Lemma add_config_None self w config :
  table_of self w !! key_of config (configspace_ext self) = None →
  add_config config (self, w)
  = (Return (stripped config (configspace_ext self),
             resource_of config (configspace_ext self)),
     inserted (key_of config (configspace_ext self)) self w).
Proof. intros Hi. unfold add_config. rewrite to_key_eq. by rewrite Hi. Qed.

Lemma add_config_Return self w config r s' :
  add_config config (self, w) = (Return r, s') →
  table_of self w !! key_of config (configspace_ext self) = None
  ∧ s' = inserted (key_of config (configspace_ext self)) self w.
Proof.
  destruct (table_of self w !! key_of config (configspace_ext self)) as [i|] eqn:Hi.
  - erewrite add_config_Some by done. done.
  - rewrite add_config_None by done. by intros [= <- <-].
Qed.

Lemma config_id_Some self w config i :
  table_of self w !! key_of config (configspace_ext self) = Some i →
  config_id config (self, w)
  = (Return (identifier i (resource_of config (configspace_ext self))), (self, w)).
Proof.
  intros Hi. unfold config_id. rewrite to_key_eq, Hi.
  by destruct (resource_of _ _).
Qed.

Lemma config_id_None self w config :
  table_of self w !! key_of config (configspace_ext self) = None →
  config_id config (self, w)
  = (Raise (KeyError (key_of config (configspace_ext self))), (self, w)).
Proof. intros Hi. unfold config_id. by rewrite to_key_eq, Hi. Qed.

Lemma config_id_state config s : (config_id config s).2 = s.
Proof.
  destruct s as [self w].
  destruct (table_of self w !! key_of config (configspace_ext self)) eqn:Hi.
  - by erewrite config_id_Some.
  - by rewrite config_id_None.
Qed.

Lemma table_of_init ext w :
  table_of (__init__ ext w).1 (__init__ ext w).2 = ∅.
Proof.
  unfold __init__, new_dict, table_of, deref, store_dict; simpl.
  apply lookup_total_insert_eq.
Qed.

#[local] Arguments ConfigCounter.add_config : simpl never.
#[local] Arguments ConfigCounter.config_id : simpl never.
#[local] Arguments ConfigCounter.__init__ : simpl never.

Lemma dense_init ext w : dense (__init__ ext w).
Proof.
  unfold dense. rewrite table_of_init. split; [done|].
  intros ??. by rewrite lookup_empty.
Qed.

Lemma dense_inserted key self w :
  table_of self w !! key = None → dense (self, w) → dense (inserted key self w).
Proof.
  intros Hkey [Hsize Hlt]. unfold dense. rewrite table_of_inserted. simpl in *.
  split.
  - rewrite map_size_insert_None by done. lia.
  - intros k i. rewrite lookup_insert. case_decide; intros; simplify_eq; [lia|].
    specialize (Hlt _ _ H0). lia.
Qed.

Lemma dense_add_config config s : dense s → dense (add_config config s).2.
Proof.
  destruct s as [self w]. intros Hs.
  destruct (table_of self w !! key_of config (configspace_ext self)) eqn:Hi.
  - by erewrite add_config_Some.
  - rewrite add_config_None by done. by apply dense_inserted.
Qed.

Lemma dense_step c s : dense s → dense (Registry.step c s).2.
Proof.
  intros Hs. destruct c as [config|config]; simpl.
  - pose proof (dense_add_config config s Hs) as H.
    by destruct (add_config config s) as [[[??]|?] ?].
  - pose proof (config_id_state config s) as H.
    destruct (config_id config s) as [[?|?] ?]; simpl in *; by subst.
Qed.

Lemma dense_run cs s : dense s → dense (Registry.run cs s).2.
Proof.
  revert s. induction cs as [|c cs IH]; intros s Hs; simpl; [done|].
  pose proof (dense_step c s Hs) as H.
  destruct (Registry.step c s) as [a s']. specialize (IH s' H).
  by destruct (Registry.run cs s').
Qed.

Lemma inserts_dense configs s :
  dense s →
  (Registry.inserts configs s).1
  = (λ n, Some (config_counter s.1 + Z.of_nat n))
      <$> seq 0 (length (Registry.inserts configs s).1)
  ∧ config_counter (Registry.inserts configs s).2.1
    = config_counter s.1 + Z.of_nat (length (Registry.inserts configs s).1)
  ∧ dense (Registry.inserts configs s).2.
Proof.
  revert s. induction configs as [|config configs IH]; intros [self w] Hs; simpl.
  { split_and!; [done|lia|done]. }
  destruct (table_of self w !! key_of config (configspace_ext self)) eqn:Hi.
  { erewrite add_config_Some by done. by apply IH. }
  rewrite add_config_None by done.
  set (s' := inserted _ self w).
  assert (dense s') as Hs' by by apply dense_inserted.
  destruct (IH s' Hs') as (Hids & Hc & Hd).
  destruct (Registry.inserts configs s') as [ids s''] eqn:Hrun; simpl in *.
  split_and!; [|lia|done].
  f_equal.
  - unfold Registry.minted. subst s'. rewrite table_of_inserted. simpl.
    rewrite lookup_insert_eq. f_equal. lia.
  - rewrite Hids at 1. rewrite <-fmap_S_seq, <-list_fmap_compose.
    apply list_fmap_ext. intros ? n _. simpl. f_equal. lia.
Qed.

End registry.


Section registry_claims.
Import ConfigCounter.
#[local] Arguments ConfigCounter.add_config : simpl never.
#[local] Arguments ConfigCounter.config_id : simpl never.
#[local] Arguments ConfigCounter.__init__ : simpl never.

(** Scenario C of the specification. *)
Example scenario_C :
  (config_id x1_r5 registry1).1 = Return "0:5"
  ∧ (add_config x1_r9 registry1).1 = Raise (AssertionError ConfigAlreadyAssigned).
Proof. vm_compute. split; reflexivity. Qed.

(** C3 (amended).  Whatever the state of the registry, [add_config] on a
    configuration whose canonical key is in the table raises the
    duplicate-configuration assertion and changes nothing: no identifier is
    returned and the entry is not reused.  In a state where the counter is
    the number of entries and bounds every identifier of the table, the
    successful inserts of any further sequence mint pairwise distinct
    identifiers, none of which is held by a key of the table; and every
    state reached from a fresh registry by [add_config] and [config_id]
    calls is such a state.  States produced by [set_mutable_state] are not
    covered. *)
Theorem add_config_rejects_known_key (config : Dict.t) :
  (∀ self w,
     is_Some (table_of self w !! key_of config (configspace_ext self)) →
     add_config config (self, w)
     = (Raise (AssertionError ConfigAlreadyAssigned), (self, w)))
  ∧ (∀ s configs,
       dense s →
       NoDup (Registry.inserts configs s).1
       ∧ ∀ key i, table_of s.1 s.2 !! key = Some i
                  → Some i ∉ (Registry.inserts configs s).1)
  ∧ (∀ ext w cs, dense (Registry.run cs (__init__ ext w)).2).
Proof.
  split_and!.
  - intros self w [i Hi]. by eapply add_config_Some.
  - intros s configs Hs.
    destruct (inserts_dense configs s Hs) as (-> & _). split.
    + apply NoDup_fmap_2; [|apply NoDup_seq].
      intros n m [=]. lia.
    + intros key i Hi. destruct Hs as [_ Hlt]. specialize (Hlt _ _ Hi).
      intros (n & [=] & _)%list_elem_of_fmap. lia.
  - intros ext w cs. apply dense_run, dense_init.
Qed.

Lemma add_config_rejects_known_key_witness :
  add_config x1_r9 registry1
  = (Raise (AssertionError ConfigAlreadyAssigned), registry1)
  ∧ NoDup (Registry.inserts [x2; x1; x3] registry1).1.
Proof.
  destruct (add_config_rejects_known_key x1_r9) as (Hknown & Hfresh & _). split.
  - apply Hknown. exists 0. vm_compute. reflexivity.
  - apply Hfresh. split.
    + vm_compute. reflexivity.
    + intros key i.
      assert (table_of registry1.1 registry1.2 = {[ "(1,)" := 0 ]}) as ->
        by (vm_compute; reflexivity).
      intros [_ <-]%lookup_singleton_Some.
      change (config_counter registry1.1) with 1. lia.
Defined.

(** C3 does not hold for every state.  [get_mutable_state] hands out the
    table itself and [set_mutable_state] puts the counter back: after
    exporting a fresh registry, inserting [x1], restoring the export and
    inserting [x2], both inserts have returned and both have minted the
    identifier 0; the table holds 0 under two keys while the counter is 1. *)
Lemma restore_reuses_identifier :
  (insert_restore_insert x1 x2 (__init__ None world0)).1 = Return (Some 0, Some 0)
  ∧ table_of (insert_restore_insert x1 x2 (__init__ None world0)).2.1
             (insert_restore_insert x1 x2 (__init__ None world0)).2.2
    = {[ "(1,)" := 0; "(2,)" := 0 ]}
  ∧ config_counter (insert_restore_insert x1 x2 (__init__ None world0)).2.1 = 1.
Proof. vm_compute. split_and!; reflexivity. Qed.

(** C4.  Starting from a fresh registry, the successful inserts mint the
    identifiers 0, 1, 2, ... in call order (the n-th one mints n-1); in the
    state reached, the counter is the number of identifiers minted, the
    number of entries of the table, and the identifier that the next
    successful insert mints. *)
Theorem ids_dense_in_call_order (ext : option ExtendedConfiguration) (w : World)
    (configs : list Dict.t) :
  minted_ids configs (__init__ ext w)
  = (λ n, Some (Z.of_nat n)) <$> seq 0 (length (minted_ids configs (__init__ ext w)))
  ∧ config_counter (after_inserts configs (__init__ ext w)).1
    = Z.of_nat (length (minted_ids configs (__init__ ext w)))
  ∧ config_counter (after_inserts configs (__init__ ext w)).1
    = Z.of_nat (size (table_of (after_inserts configs (__init__ ext w)).1
                               (after_inserts configs (__init__ ext w)).2))
  ∧ ∀ config r s',
      add_config config (after_inserts configs (__init__ ext w)) = (Return r, s') →
      Registry.minted config s'
      = Some (config_counter (after_inserts configs (__init__ ext w)).1).
Proof.
  unfold minted_ids, after_inserts.
  destruct (inserts_dense configs (__init__ ext w)) as (Hids & Hc & Hsize & Hlt);
    [apply dense_init|].
  assert (config_counter (__init__ ext w).1 = 0) as H0 by done.
  rewrite H0 in Hids, Hc.
  split_and!; [| lia | done |].
  - rewrite Hids at 1. apply list_fmap_ext. intros ? n _. f_equal; lia.
  - intros config r s' Hadd.
    destruct (Registry.inserts configs (__init__ ext w)).2 as [self w'].
    apply add_config_Return in Hadd as [_ ->].
    unfold Registry.minted. rewrite table_of_inserted. simpl.
    apply lookup_insert_eq.
Qed.

Lemma ids_dense_in_call_order_witness :
  Registry.minted x2 (add_config x2 (after_inserts [x1_r5; x1_r9] registry0)).2
  = Some 1.
Proof.
  apply (proj2 (proj2 (proj2
           (ids_dense_in_call_order ext_r world0 [x1_r5; x1_r9]))) x2 (x2, None)).
  vm_compute. reflexivity.
Defined.

(** C5.  If [c1] and [c2] have the same non-resource entries, then after
    one successful [add_config c1] the call [config_id] returns on both, with
    the same base identifier: the bare integer for a configuration without
    resource value, the integer followed by a colon and the resource value
    otherwise. *)
Theorem config_id_shares_base_id (self : ConfigCounter.t) (w : World)
    (c1 c2 : Dict.t) (r : Dict.t * option Py.value) (s1 : ConfigCounter.t * World) :
  Dict.wf c1 → Dict.wf c2 →
  Dict.same (stripped c1 (configspace_ext self)) (stripped c2 (configspace_ext self)) →
  add_config c1 (self, w) = (Return r, s1) →
  config_id c1 s1
  = (Return (identifier (config_counter self) (resource_of c1 (configspace_ext self))), s1)
  ∧ config_id c2 s1
    = (Return (identifier (config_counter self) (resource_of c2 (configspace_ext self))), s1).
Proof.
  intros Hwf1 Hwf2 Hsame Hadd.
  apply add_config_Return in Hadd as [_ ->].
  pose proof (key_of_same c1 c2 _ Hwf1 Hwf2 Hsame) as Hkey.
  set (key := key_of c1 (configspace_ext self)) in *.
  split.
  - apply (config_id_Some (inserted key self w).1).
    rewrite table_of_inserted. apply lookup_insert_eq.
  - apply (config_id_Some (inserted key self w).1).
    rewrite table_of_inserted. simpl. rewrite <-Hkey. apply lookup_insert_eq.
Qed.

Lemma config_id_shares_base_id_witness :
  config_id x1_r5 registry1 = (Return "0:5", registry1)
  ∧ config_id x1 registry1 = (Return "0", registry1).
Proof.
  apply (config_id_shares_base_id registry0.1 registry0.2 x1_r5 x1
           (x1, Some (Py.VInt 5)) registry1).
  - apply (bool_decide_unpack _). vm_compute. exact I.
  - apply (bool_decide_unpack _). vm_compute. exact I.
  - intros name. vm_compute. reflexivity.
  - vm_compute. reflexivity.
Defined.

End registry_claims.


(** ** Flushing a block *)

Section printer.
Import DebugLogPrinter.
Implicit Types (self : DebugLogPrinter.t) (w : World) (b : gmap string info).

Lemma texts_Text ss : texts (Text <$> ss) = Some ss.
Proof.
  induction ss as [|s ss IH]; [done|].
  change (texts (Text <$> s :: ss)) with ((s ::.) <$> texts (Text <$> ss)).
  by rewrite IH.
Qed.

Lemma append_if_present_Text b name ps :
  block_wf b → name ≠ "num_evals" →
  append_if_present b name (Text <$> ps) = Text <$> (ps ++ Report.part b name).
Proof.
  intros Hwf Hname. unfold append_if_present, Report.part.
  destruct (b !! name) as [v|] eqn:Hv.
  - rewrite fmap_app; simpl. by rewrite <-(Hwf name v).
  - by rewrite app_nil_r.
Qed.

Lemma log_all_nil w : log_all [] w = w.
Proof. destruct w. unfold log_all; simpl. by rewrite app_nil_r. Qed.

Lemma log_all_app ms1 ms2 w : log_all ms2 (log_all ms1 w) = log_all (ms1 ++ ms2) w.
Proof. unfold log_all; simpl. by rewrite app_assoc. Qed.

Lemma expected_parts_Text b names ps self w :
  block_wf b → Forall (λ name, name ≠ "num_evals") names →
  expected_parts b names (Text <$> ps) (self, w)
  = (Return (Text <$> (ps ++ mjoin (Report.part b <$> names))),
     (self, log_all (mjoin (Report.missing b <$> names)) w)).
Proof.
  intros Hwf Hnames. revert ps w.
  induction Hnames as [|name names Hname _ IH]; intros ps w; simpl.
  { by rewrite app_nil_r, log_all_nil. }
  unfold Report.part at 1, Report.missing at 1.
  destruct (b !! name) as [v|] eqn:Hv.
  - rewrite (Hwf name v) by done.
    replace ((Text <$> ps) ++ [Text (str_info v)])
      with (Text <$> (ps ++ [str_info v])) by (by rewrite fmap_app).
    rewrite IH. simpl. by rewrite <-app_assoc.
  - run_M. rewrite IH. do 2 f_equal. unfold log_all; simpl. by rewrite <-app_assoc.
Qed.

#[local] Arguments expected_parts : simpl never.
#[local] Arguments append_if_present : simpl never.
#[local] Arguments texts : simpl never.
#[local] Arguments String.append : simpl never.
#[local] Arguments Py.join : simpl never.
#[local] Arguments Py.str_int : simpl never.

Lemma write_block_finalized self w kind fc :
  get_config_type self = Some kind →
  block_info self !! "final_config" = Some fc →
  block_wf (block_info self) →
  write_block (self, w)
  = (Return (),
     (flushed self,
      log_all (Report.diagnostics kind (block_info self)
               ++ [Py.join Py.nl
                     (Report.parts
                        (ConfigCounter.config_counter (config_counter self) - 1)
                        kind (block_info self))]) w)).
Proof.
  intros Hkind Hfc Hwf. unfold write_block. run_M.
  rewrite Hkind, Hfc.
  set (b := block_info self) in *.
  set (id := ConfigCounter.config_counter (config_counter self) - 1).
  assert (match b !! "num_evals" with
          | Some n => [Text ("[" +:+ Py.str_int id +:+ ": " +:+ kind +:+ "] ("
                             +:+ str_info n +:+ " evaluations)")]
          | None => [Text ("[" +:+ Py.str_int id +:+ ": " +:+ kind +:+ "]")]
          end ++ [fc]
          = Text <$> ([Report.header id kind (b !! "num_evals")]
                      ++ Report.part b "final_config")) as ->.
  { unfold Report.part. rewrite Hfc. rewrite (Hwf _ _ Hfc) by done.
    by destruct (b !! "num_evals"). }
  unfold Report.parts, Report.diagnostics.
  case_bool_decide as HBO.
  - rewrite append_if_present_Text by done.
    rewrite expected_parts_Text by (by repeat constructor).
    rewrite !append_if_present_Text by done.
    rewrite texts_Text.
    unfold flushed, log_all, log_info; simpl.
    by rewrite !app_nil_r, <-!app_assoc.
  - rewrite !append_if_present_Text by done.
    rewrite texts_Text.
    unfold flushed, log_all, log_info; simpl. by rewrite ?app_nil_r, <-?app_assoc.
Qed.

Lemma write_block_unfinalized self w kind :
  get_config_type self = Some kind →
  block_info self !! "final_config" = None →
  write_block (self, w) = (Raise (KeyError "final_config"), (self, w)).
Proof.
  intros Hkind Hfc. unfold write_block. run_M.
  by rewrite Hkind, Hfc.
Qed.

Lemma write_block_idle self w :
  get_config_type self = None →
  write_block (self, w) = (Raise (AssertionError NoBlockOpen), (self, w)).
Proof.
  intros Hkind. unfold write_block. run_M.
  by rewrite Hkind.
Qed.

End printer.


(** ** The effect of a call on the block *)

Section printer_steps.
Import DebugLogPrinter.
Implicit Types (self : DebugLogPrinter.t) (w : World) (s : Printer.state).

Lemma expected_parts_self b names parts self w :
  ∃ w', (expected_parts b names parts (self, w)).2 = (self, w').
Proof.
  revert parts w. induction names as [|name names IH]; intros parts w; cbn [expected_parts].
  { by exists w. }
  destruct (b !! name); [apply IH|]. run_M. apply IH.
Qed.

#[local] Arguments ConfigCounter.add_config : simpl never.
#[local] Arguments ConfigCounter.config_id : simpl never.
#[local] Arguments ConfigCounter.__init__ : simpl never.
#[local] Arguments DebugLogPrinter.config_id : simpl never.
#[local] Arguments _to_key : simpl never.
#[local] Arguments expected_parts : simpl never.
#[local] Arguments append_if_present : simpl never.
#[local] Arguments texts : simpl never.
#[local] Arguments String.append : simpl never.
#[local] Arguments Py.join : simpl never.
#[local] Arguments Py.str_int : simpl never.

Lemma with_config_counter_same self :
  with_config_counter (config_counter self) self = self.
Proof. by destruct self. Qed.

Lemma printer_config_id_state config s : (DebugLogPrinter.config_id config s).2 = s.
Proof.
  destruct s as [self w]. unfold DebugLogPrinter.config_id. run_M.
  pose proof (config_id_state config (config_counter self, w)) as H.
  destruct (ConfigCounter.config_id config (config_counter self, w)) as [r [cc w']].
  simpl in *. simplify_eq. by rewrite with_config_counter_same.
Qed.

Lemma for_each_config_id_state configs s :
  (for_each DebugLogPrinter.config_id configs s).2 = s.
Proof.
  revert s. induction configs as [|config configs IH]; intros s; [done|].
  cbn [for_each]. run_M.
  pose proof (printer_config_id_state config s) as H.
  destruct (DebugLogPrinter.config_id config s) as [[i|e] s1]; simpl in *; subst; [|done].
  specialize (IH s).
  by destruct (for_each DebugLogPrinter.config_id configs s) as [[is_|e] s2]; simpl in *; subst.
Qed.

Lemma write_block_cases self w :
  (∃ e w', write_block (self, w) = (Raise e, (self, w')))
  ∨ (∃ w', is_Some (block_info self !! "final_config")
           ∧ is_Some (get_config_type self)
           ∧ write_block (self, w) = (Return (), (flushed self, w'))).
Proof.
  destruct (get_config_type self) as [kind|] eqn:Hkind.
  2:{ rewrite write_block_idle by done. left; eauto. }
  destruct (block_info self !! "final_config") as [fc|] eqn:Hfc.
  2:{ erewrite write_block_unfinalized by done. left; eauto. }
  unfold write_block. run_M. rewrite Hkind, Hfc.
  case_bool_decide.
  - match goal with |- context [expected_parts ?b ?ns ?ps ?s] =>
      destruct (expected_parts_self b ns ps self w) as [w' Hw'];
      destruct (expected_parts b ns ps s) as [[ps'|e] s1]
    end; simpl in Hw'; subst s1; [|left; eauto].
    destruct (texts _); [right|left]; eauto.
  - destruct (texts _); [right|left]; eauto.
Qed.

Ltac same := left; by split.
Ltac sets name v := right; left; exists name, v; split_and!; [done|done|by auto|done].

Lemma block_effect_step c s : block_effect c s (Printer.step c s).
Proof.
  destruct s as [self w]. unfold block_effect.
  destruct c; cbn [Printer.step Printer.is_set_final_config Printer.is_write_block].
  - (* set_configspace_ext *)
    unfold set_configspace_ext.
    destruct (ConfigCounter.__init__ _ w) as [cc w']. same.
  - rewrite printer_config_id_state. same.
  - (* start_get_config *)
    unfold start_get_config. run_M.
    case_bool_decide as Hk; [|same].
    destruct (get_config_type self) eqn:Hopen; simpl; [same|].
    right; right; left. by exists gc_type.
  - (* set_final_config *)
    unfold set_final_config. run_M.
    destruct (get_config_type self) eqn:Hopen; simpl; [|same].
    destruct (ConfigCounter.add_config config (config_counter self, w))
      as [[[d r]|e] [cc w']]; simpl; [|same].
    destruct r; simpl; [same|].
    sets "final_config" (Text (Py.join Py.nl (entries d))).
  - (* set_state *)
    unfold set_state. run_M.
    case_bool_decide; [|same].
    pose proof (for_each_config_id_state (candidate_evaluations state) (self, w)) as H1.
    destruct (for_each _ (candidate_evaluations state) _) as [[l|e] s1];
      simpl in *; subst; [|same].
    pose proof (for_each_config_id_state (pending_candidates state) (self, w)) as H2.
    destruct (for_each _ (pending_candidates state) _) as [[p|e] s2];
      simpl in *; subst; [|same].
    sets "state" (Text ("Labeled: " +:+ Py.join ", " l +:+ ". Pending: " +:+ Py.join ", " p)).
  - unfold set_targets. run_M. case_bool_decide; [|same].
    sets "targets" (Text ("Targets: " +:+ targets_str)).
  - unfold set_gp_params. run_M. case_bool_decide; [|same].
    sets "params" (Text ("GP params:" +:+ params_str)).
  - unfold set_fantasies. run_M. case_bool_decide; [|same].
    sets "fantasies" (Text ("Fantasized targets:" +:+ Py.nl +:+ fantasies_str)).
  - unfold set_init_config. run_M. case_bool_decide; [|same].
    destruct (_to_key _ _) as [[? d] ?].
    right; left. eexists "start_config", _. split_and!; [done|done| |done].
    right. reflexivity.
  - unfold set_num_evaluations. run_M. case_bool_decide; [|same].
    sets "num_evals" (Count num_evals).
  - unfold append_extra. run_M.
    destruct (block_info self !! "extra") as [[old|n]|].
    + sets "extra" (Text (Py.join Py.nl [old; extra])).
    + same.
    + sets "extra" (Text extra).
  - (* write_block *)
    destruct (write_block_cases self w) as [(e & w' & ->)|(w' & Hfc & _ & ->)].
    + same.
    + right; right; right. split_and!; [done..|]. by right.
  - (* set_mutable_state *)
    unfold set_mutable_state. run_M.
    destruct (get_config_type self) eqn:Hopen; simpl; [same|].
    right; right; right. split_and!; [done..|]. by left.
Qed.

End printer_steps.


(** ** Invariants of the block along a call sequence *)

Section printer_invariants.
Import DebugLogPrinter.
Implicit Types (self : DebugLogPrinter.t) (w : World) (s : Printer.state).

Lemma block_wf_empty : block_wf ∅.
Proof. intros name v. by rewrite lookup_empty. Qed.

Lemma block_wf_insert name v b :
  name = "num_evals" ∨ v = Text (str_info v) → block_wf b → block_wf (<[name := v]> b).
Proof.
  intros Hv Hwf name' v'. rewrite lookup_insert.
  case_decide; [|by apply Hwf]. intros; simplify_eq. by destruct Hv.
Qed.

Lemma block_inv_init ext w : block_inv (__init__ ext w).
Proof.
  unfold __init__. destruct (ConfigCounter.__init__ ext w) as [cc w'].
  split; [apply block_wf_empty|done].
Qed.

Lemma block_inv_step c s : block_inv s → block_inv (Printer.step c s).
Proof.
  intros [Hwf Hidle].
  destruct (block_effect_step c s)
    as [[Hk Hb]|[(name & v & Hk & Hb & Hv & Hfc)|[(k & _ & _ & Hk & Hb & _)|(Hk & Hb & _)]]];
    unfold block_inv; rewrite Hk, Hb.
  - done.
  - split; [by apply block_wf_insert|].
    intros Hnone. rewrite lookup_insert. case_decide as Hname; [|by auto].
    by destruct (Hfc Hname).
  - done.
  - split; [apply block_wf_empty|done].
Qed.

Lemma block_inv_run cs s : block_inv s → block_inv (Printer.run cs s).
Proof.
  revert s. induction cs as [|c cs IH]; intros s Hs; [done|].
  apply IH. by apply block_inv_step.
Qed.

Lemma unfinalized_step kind c s :
  Printer.is_set_final_config c = false →
  unfinalized kind s → unfinalized kind (Printer.step c s).
Proof.
  intros Hc [Hopen Hnone].
  destruct (block_effect_step c s)
    as [[Hk Hb]|[(name & v & Hk & Hb & Hv & Hfc)|[(k & _ & Hk' & _)|(_ & _ & [Hk'|[_ Hfc]])]]];
    unfold unfinalized.
  - by rewrite Hk, Hb.
  - rewrite Hk, Hb. split; [done|].
    rewrite lookup_insert. case_decide as Hname; [|done].
    destruct (Hfc Hname). congruence.
  - congruence.
  - congruence.
  - rewrite Hnone in Hfc. by destruct Hfc.
Qed.

Lemma unfinalized_run kind cs s :
  Forall (λ c, Printer.is_set_final_config c = false) cs →
  unfinalized kind s → unfinalized kind (Printer.run cs s).
Proof.
  intros Hcs. revert s. induction Hcs as [|c cs Hc _ IH]; intros s Hs; [done|].
  apply IH. by apply unfinalized_step.
Qed.

Lemma finalized_step kind c s :
  Printer.is_write_block c = false →
  finalized kind s → finalized kind (Printer.step c s).
Proof.
  intros Hc (Hopen & Hfc & Hwf).
  destruct (block_effect_step c s)
    as [[Hk Hb]|[(name & v & Hk & Hb & Hv & _)|[(k & _ & Hk' & _)|(_ & _ & [Hk'|[Hc' _]])]]];
    unfold finalized.
  - by rewrite Hk, Hb.
  - rewrite Hk, Hb. split_and!; [done| |by apply block_wf_insert].
    rewrite lookup_insert. by case_decide.
  - congruence.
  - congruence.
  - congruence.
Qed.

Lemma finalized_run kind cs s :
  Forall (λ c, Printer.is_write_block c = false) cs →
  finalized kind s → finalized kind (Printer.run cs s).
Proof.
  intros Hcs. revert s. induction Hcs as [|c cs Hc _ IH]; intros s Hs; [done|].
  apply IH. by apply finalized_step.
Qed.

Lemma start_get_config_idle gc_type self w :
  gc_type ∈ ["random"; "BO"] → get_config_type self = None →
  start_get_config gc_type (self, w)
  = (Return (),
     (with_get_config_type (Some gc_type) self,
      log_info ("Starting get_config[" +:+ gc_type +:+ "] for config_id "
                +:+ Py.str_int (ConfigCounter.config_counter (config_counter self))) w)).
Proof.
  intros Hk Hidle. unfold start_get_config.
  cbv beta iota zeta delta
    [mbind M_bind mret M_ret gets modify raise py_assert logger_info fst snd].
  rewrite bool_decide_true by done. rewrite Hidle.
  by rewrite bool_decide_true by done.
Qed.

Lemma unfinalized_start kind s :
  kind ∈ ["random"; "BO"] → get_config_type s.1 = None → block_inv s →
  unfinalized kind (Printer.step (Printer.StartGetConfig kind) s).
Proof.
  destruct s as [self w]. intros Hk Hidle [_ Hnone]. simpl in *.
  rewrite start_get_config_idle by done. split; [done|]. simpl. by apply Hnone.
Qed.

#[local] Arguments ConfigCounter.add_config : simpl never.
#[local] Arguments ConfigCounter.config_id : simpl never.
#[local] Arguments ConfigCounter.__init__ : simpl never.
#[local] Arguments String.append : simpl never.
#[local] Arguments Py.join : simpl never.
#[local] Arguments Py.str_int : simpl never.

Lemma stripped_no_resource config ext :
  resource_of config ext = None → stripped config ext = config.
Proof.
  rewrite resource_of_eq, stripped_eq. destruct ext as [e|]; simpl; [|done].
  apply remove_absent.
Qed.

(** The three ways [set_final_config] can end in an open block. *)
Lemma set_final_config_open config self w kind :
  get_config_type self = Some kind →
  let cc := config_counter self in
  let ext := ConfigCounter.configspace_ext cc in
  let key := key_of config ext in
  set_final_config config (self, w)
  = match ConfigCounter.table_of cc w !! key with
    | Some _ => (Raise (AssertionError ConfigAlreadyAssigned), (self, w))
    | None =>
        match resource_of config ext with
        | Some _ =>
            (Raise (AssertionError ConfigMustNotBeExtended),
             (with_config_counter (inserted key cc w).1 self, (inserted key cc w).2))
        | None =>
            (Return (),
             (with_block_info
                (<["final_config" := Text (Py.join Py.nl (entries config))]>
                   (block_info self))
                (with_config_counter (inserted key cc w).1 self),
              (inserted key cc w).2))
        end
    end.
Proof.
  intros Hopen cc ext key. unfold set_final_config. run_M. rewrite Hopen. simpl.
  fold cc. destruct (ConfigCounter.table_of cc w !! key) as [i|] eqn:Hkey.
  { erewrite add_config_Some by done. unfold cc. by rewrite with_config_counter_same. }
  rewrite add_config_None by done. fold ext key.
  destruct (resource_of config ext) as [r|] eqn:Hres; simpl; [done|].
  by rewrite stripped_no_resource.
Qed.

Lemma set_final_config_idle config self w :
  get_config_type self = None →
  set_final_config config (self, w) = (Raise (AssertionError NoBlockOpen), (self, w)).
Proof. intros Hidle. unfold set_final_config. run_M. by rewrite Hidle. Qed.

Lemma finalized_set_final_config config s s' :
  block_inv s →
  set_final_config config s = (Return (), s') →
  ∃ kind, get_config_type s.1 = Some kind ∧ finalized kind s'
  ∧ block_info s'.1 !! "final_config" = Some (Text (Py.join Py.nl (entries config)))
  ∧ ConfigCounter.config_counter (config_counter s'.1)
    = ConfigCounter.config_counter (config_counter s.1) + 1.
Proof.
  destruct s as [self w]. intros [Hwf _].
  destruct (get_config_type self) as [kind|] eqn:Hopen.
  2:{ by rewrite set_final_config_idle. }
  rewrite (set_final_config_open _ _ _ kind) by done.
  destruct (ConfigCounter.table_of _ _ !! _); [done|].
  destruct (resource_of _ _); [done|].
  intros [= <-]. exists kind. simpl. split_and!; [done| |by rewrite lookup_insert_eq|done].
  split_and!; simpl; [done|by rewrite lookup_insert_eq|].
  apply block_wf_insert; [by right|done].
Qed.

End printer_invariants.


(** ** The block aggregator *)

Section printer_claims.
Import DebugLogPrinter.
Implicit Types (self : DebugLogPrinter.t) (w : World) (s : Printer.state).
#[local] Arguments ConfigCounter.add_config : simpl never.
#[local] Arguments ConfigCounter.config_id : simpl never.
#[local] Arguments ConfigCounter.__init__ : simpl never.
#[local] Arguments String.append : simpl never.
#[local] Arguments Py.join : simpl never.
#[local] Arguments Py.str_int : simpl never.

Lemma run_app cs1 cs2 s : Printer.run (cs1 ++ cs2) s = Printer.run cs2 (Printer.run cs1 s).
Proof. apply foldl_app. Qed.

Lemma run_cons c cs s : Printer.run (c :: cs) s = Printer.run cs (Printer.step c s).
Proof. done. Qed.

(** C2 (amended).  In an open block in which [set_final_config] was not
    called, [write_block] raises [KeyError] on the missing [final_config]
    part: no report is emitted and the block stays open as it was.  With no
    block open, [write_block] fails its assertion. *)
Theorem write_block_requires_final_config (ext : option ExtendedConfiguration)
    (w0 : World) (before calls : list Printer.call) (kind : string) :
  get_config_type (Printer.run before (__init__ ext w0)).1 = None →
  kind ∈ ["random"; "BO"] →
  Forall (λ c, Printer.is_set_final_config c = false) calls →
  write_block (Printer.run (before ++ Printer.StartGetConfig kind :: calls) (__init__ ext w0))
  = (Raise (KeyError "final_config"),
     Printer.run (before ++ Printer.StartGetConfig kind :: calls) (__init__ ext w0))
  ∧ ∀ s, get_config_type s.1 = None →
         write_block s = (Raise (AssertionError NoBlockOpen), s).
Proof.
  intros Hidle Hkind Hcalls. split.
  - rewrite run_app.
    set (idle := Printer.run before (__init__ ext w0)) in *.
    assert (unfinalized kind (Printer.run (Printer.StartGetConfig kind :: calls) idle))
      as [Hopen Hnone].
    { rewrite run_cons. apply unfinalized_run; [done|]. apply unfinalized_start; [done..|].
      apply block_inv_run, block_inv_init. }
    destruct (Printer.run (Printer.StartGetConfig kind :: calls) idle) as [self w].
    by apply (write_block_unfinalized _ _ kind).
  - intros [self w] Hs. by apply write_block_idle.
Qed.

Lemma write_block_requires_final_config_witness :
  write_block
    (Printer.run ([] ++ Printer.StartGetConfig "BO"
                     :: [Printer.SetTargets "[0.5]"; Printer.AppendExtra "note"])
       (__init__ None world0))
  = (Raise (KeyError "final_config"),
     Printer.run ([] ++ Printer.StartGetConfig "BO"
                     :: [Printer.SetTargets "[0.5]"; Printer.AppendExtra "note"])
       (__init__ None world0)).
Proof.
  apply (write_block_requires_final_config None world0 [] 
           [Printer.SetTargets "[0.5]"; Printer.AppendExtra "note"] "BO").
  - vm_compute. reflexivity.
  - apply (bool_decide_unpack _). vm_compute. exact I.
  - repeat constructor.
Defined.

(** C2 does not hold as stated: in a block that was just opened,
    [write_block] raises instead of emitting a report. *)
Lemma write_block_unfinalized_raises :
  get_config_type open_random.1 = Some "random"
  ∧ write_block open_random = (Raise (KeyError "final_config"), open_random).
Proof. vm_compute. split; reflexivity. Qed.

Lemma finalized_after config before calls ext w0 opened :
  set_final_config config (Printer.run before (__init__ ext w0)) = (Return (), opened) →
  Forall (λ c, Printer.is_write_block c = false) calls →
  ∃ kind, get_config_type (Printer.run before (__init__ ext w0)).1 = Some kind
          ∧ finalized kind (Printer.run calls opened)
          ∧ block_info opened.1 !! "final_config"
            = Some (Text (Py.join Py.nl (entries config))).
Proof.
  intros Hset Hcalls.
  apply finalized_set_final_config in Hset as (kind & Hkind & Hfin & Hfc & _);
    [|apply block_inv_run, block_inv_init].
  exists kind. split_and!; [done| |done]. by apply finalized_run.
Qed.

(** C7.  In an open BO block in which [set_final_config] has succeeded,
    [write_block] returns whichever of [state], [targets] and [params] were
    supplied: a part that is missing adds nothing to the report and is noted
    by a diagnostic given to the logger before the report; afterwards no
    part is left and no block is open. *)
Theorem write_block_BO_missing_parts (ext : option ExtendedConfiguration)
    (w0 : World) (before calls : list Printer.call) (config : Dict.t)
    (opened : Printer.state) :
  get_config_type (Printer.run before (__init__ ext w0)).1 = Some "BO" →
  set_final_config config (Printer.run before (__init__ ext w0)) = (Return (), opened) →
  Forall (λ c, Printer.is_write_block c = false) calls →
  write_block (Printer.run calls opened)
  = (Return (),
     ({| config_counter := config_counter (Printer.run calls opened).1;
         block_info := ∅;
         get_config_type := None |},
      {| dicts := dicts (Printer.run calls opened).2;
         logged :=
           logged (Printer.run calls opened).2
           ++ (Report.missing (block_info (Printer.run calls opened).1) "state"
               ++ Report.missing (block_info (Printer.run calls opened).1) "targets"
               ++ Report.missing (block_info (Printer.run calls opened).1) "params")
           ++ [Py.join Py.nl
                 (Report.parts
                    (ConfigCounter.config_counter
                       (config_counter (Printer.run calls opened).1) - 1)
                    "BO" (block_info (Printer.run calls opened).1))] |}))
  ∧ ∀ name,
      name ∈ ["state"; "targets"; "params"] →
      block_info (Printer.run calls opened).1 !! name = None →
      Report.part (block_info (Printer.run calls opened).1) name = []
      ∧ Report.missing (block_info (Printer.run calls opened).1) name
        = ["debug_log.write_block: '" +:+ name +:+ "' part is missing!"].
Proof.
  intros Hkind Hset Hcalls.
  destruct (finalized_after _ _ _ _ _ _ Hset Hcalls) as (kind & Hkind' & Hfin & _).
  assert (kind = "BO") as -> by congruence.
  destruct Hfin as (Hopen & [fc Hfc] & Hwf).
  destruct (Printer.run calls opened) as [self w]. split.
  - by rewrite (write_block_finalized self w "BO" fc).
  - intros name _ Hname. unfold Report.part, Report.missing. simpl in *. by rewrite Hname.
Qed.

Lemma write_block_BO_missing_parts_witness :
  (write_block (Printer.run bo_calls bo_opened)).1 = Return ()
  ∧ Report.missing (block_info (Printer.run bo_calls bo_opened).1) "state"
    = ["debug_log.write_block: 'state' part is missing!"].
Proof.
  destruct (write_block_BO_missing_parts None world0 bo_before bo_calls x1 bo_opened)
    as [Hflush Hmissing].
  - vm_compute. reflexivity.
  - vm_compute. reflexivity.
  - repeat constructor.
  - split.
    + rewrite Hflush. reflexivity.
    + apply (Hmissing "state").
      * apply (bool_decide_unpack _). vm_compute. exact I.
      * vm_compute. reflexivity.
Defined.

(** C8.  In an open block in which [set_final_config] has succeeded,
    [write_block] emits one report record (after the diagnostics of missing
    BO parts, of which a random block has none), made of the parts of
    [Report.parts] joined by newlines: the header with the counter minus
    one, the kind and the evaluation count if set, the lines of the
    finalized configuration, for BO the start configuration, state,
    targets, parameters and fantasies that were set, and the extra block if
    set. *)
Theorem write_block_report_layout (ext : option ExtendedConfiguration)
    (w0 : World) (before calls : list Printer.call) (config : Dict.t)
    (opened : Printer.state) (kind : string) :
  get_config_type (Printer.run before (__init__ ext w0)).1 = Some kind →
  set_final_config config (Printer.run before (__init__ ext w0)) = (Return (), opened) →
  Forall (λ c, Printer.is_write_block c = false) calls →
  write_block (Printer.run calls opened)
  = (Return (),
     (flushed (Printer.run calls opened).1,
      log_all
        (Report.diagnostics kind (block_info (Printer.run calls opened).1)
         ++ [Py.join Py.nl
               (Report.parts
                  (ConfigCounter.config_counter
                     (config_counter (Printer.run calls opened).1) - 1)
                  kind (block_info (Printer.run calls opened).1))])
        (Printer.run calls opened).2))
  ∧ is_Some (block_info (Printer.run calls opened).1 !! "final_config")
  ∧ block_info opened.1 !! "final_config"
    = Some (Text (Py.join Py.nl (entries config)))
  ∧ (kind ≠ "BO" → Report.diagnostics kind (block_info (Printer.run calls opened).1) = []).
Proof.
  intros Hkind Hset Hcalls.
  destruct (finalized_after _ _ _ _ _ _ Hset Hcalls) as (kind' & Hkind' & Hfin & Hlines).
  assert (kind' = kind) as -> by congruence.
  destruct Hfin as (Hopen & [fc Hfc] & Hwf).
  destruct (Printer.run calls opened) as [self w]. split_and!.
  - by rewrite (write_block_finalized self w kind fc).
  - by exists fc.
  - done.
  - intros Hne. unfold Report.diagnostics. by rewrite bool_decide_false.
Qed.

Lemma write_block_report_layout_witness :
  (write_block (Printer.run bo_calls bo_opened)).1 = Return ().
Proof.
  destruct (write_block_report_layout None world0 bo_before bo_calls x1
              bo_opened "BO") as [Hflush _].
  - vm_compute. reflexivity.
  - vm_compute. reflexivity.
  - repeat constructor.
  - rewrite Hflush. reflexivity.
Defined.

(** C9.  In an open block, [set_final_config] on a configuration that
    carries a resource value and whose base key (the key of the
    configuration with its resource entry deleted) is not yet in the table
    fails its assertion after the registry has been changed: the base key
    is in the table with the old counter as its identifier, the counter has
    moved on, the block is untouched, the base configuration now has that
    identifier, and inserting the base configuration (or the configuration
    itself) again fails as a duplicate. *)
Theorem set_final_config_extended_not_atomic (self : DebugLogPrinter.t) (w : World)
    (config : Dict.t) (e : ExtendedConfiguration) (r : Py.value) (kind : string) :
  get_config_type self = Some kind →
  ConfigCounter.configspace_ext (config_counter self) = Some e →
  Dict.get (resource_attr_name e) config = Some r →
  ConfigCounter.table_of (config_counter self) w
    !! Py.str_tuple (Dict.sorted_items (Dict.remove (resource_attr_name e) config)).*2
  = None →
  ∃ self' w',
    set_final_config config (self, w)
    = (Raise (AssertionError ConfigMustNotBeExtended), (self', w'))
    ∧ ConfigCounter.config_counter (config_counter self')
      = ConfigCounter.config_counter (config_counter self) + 1
    ∧ ConfigCounter.table_of (config_counter self') w'
      = <[Py.str_tuple (Dict.sorted_items (Dict.remove (resource_attr_name e) config)).*2
          := ConfigCounter.config_counter (config_counter self)]>
          (ConfigCounter.table_of (config_counter self) w)
    ∧ block_info self' = block_info self
    ∧ get_config_type self' = Some kind
    ∧ ConfigCounter.config_id (Dict.remove (resource_attr_name e) config)
        (config_counter self', w')
      = (Return (Py.str_int (ConfigCounter.config_counter (config_counter self))),
         (config_counter self', w'))
    ∧ ConfigCounter.add_config (Dict.remove (resource_attr_name e) config)
        (config_counter self', w')
      = (Raise (AssertionError ConfigAlreadyAssigned), (config_counter self', w'))
    ∧ ConfigCounter.add_config config (config_counter self', w')
      = (Raise (AssertionError ConfigAlreadyAssigned), (config_counter self', w')).
Proof.
  intros Hopen Hext Hres Hkey.
  assert (stripped config (Some e) = Dict.remove (resource_attr_name e) config)
    as Hbase by by rewrite stripped_eq.
  assert (key_of config (Some e)
          = Py.str_tuple (Dict.sorted_items (Dict.remove (resource_attr_name e) config)).*2)
    as Hk by by rewrite key_of_eq, Hbase.
  rewrite <-Hk in *. rewrite <-Hbase.
  rewrite (set_final_config_open _ _ _ kind) by done. rewrite Hext, Hkey.
  rewrite resource_of_eq. simpl. rewrite Hres.
  exists (with_config_counter
            (inserted (key_of config (Some e)) (config_counter self) w).1 self),
         (inserted (key_of config (Some e)) (config_counter self) w).2.
  split; [done|].
  cbn [config_counter with_config_counter block_info get_config_type].
  rewrite table_of_inserted.
  assert (ConfigCounter.table_of
            (inserted (key_of config (Some e)) (config_counter self) w).1
            (inserted (key_of config (Some e)) (config_counter self) w).2
          !! key_of (stripped config (Some e)) (Some e)
          = Some (ConfigCounter.config_counter (config_counter self))) as Hin.
  { rewrite table_of_inserted.
    unfold key_of at 1. rewrite stripped_stripped. simpl. apply lookup_insert_eq. }
  assert (resource_of (stripped config (Some e)) (Some e) = None) as Hnone.
  { unfold resource_of. by rewrite stripped_stripped. }
  split_and!; [done..| | |].
  - erewrite config_id_Some; [|simpl; rewrite Hext; exact Hin].
    simpl. rewrite Hext, Hnone. done.
  - eapply add_config_Some. simpl. rewrite Hext. exact Hin.
  - eapply add_config_Some. rewrite table_of_inserted. simpl. rewrite Hext.
    apply lookup_insert_eq.
Qed.

Lemma set_final_config_extended_not_atomic_witness :
  (set_final_config x1_r5 open_bo_r).1
  = Raise (AssertionError ConfigMustNotBeExtended).
Proof.
  destruct (set_final_config_extended_not_atomic open_bo_r.1 open_bo_r.2 x1_r5
              {| resource_attr_name := "resource" |} (Py.VInt 5) "BO")
    as (self' & w' & Hraise & _).
  - vm_compute. reflexivity.
  - vm_compute. reflexivity.
  - vm_compute. reflexivity.
  - vm_compute. reflexivity.
  - change open_bo_r with (open_bo_r.1, open_bo_r.2). rewrite Hraise. reflexivity.
Defined.

(** Scenarios A and B of the specification. *)
Example scenarios_A_B :
  logged (Printer.run (scenario_A ++ scenario_B) printer0).2
  = ["Starting get_config[random] for config_id 0";
     "[0: random]" +:+ Py.nl +:+ "x: 1" +:+ Py.nl +:+ "y: 2";
     "Starting get_config[BO] for config_id 1";
     "[1: BO]" +:+ Py.nl +:+ "x: 3" +:+ Py.nl +:+ "Labeled: 0. Pending: "
       +:+ Py.nl +:+ "Targets: [0.5]" +:+ Py.nl +:+ "GP params:{'kernel': 'matern'}"]
  ∧ get_config_type (Printer.run (scenario_A ++ scenario_B) printer0).1 = None.
Proof. vm_compute. split; reflexivity. Qed.

End printer_claims.


(** ** Export and restore *)

Section restore.
Import ConfigCounter.
#[local] Arguments ConfigCounter.add_config : simpl never.
#[local] Arguments ConfigCounter.config_id : simpl never.

Lemma step_same_view c s1 s2 :
  same_view s1 s2 →
  (Registry.step c s1).1 = (Registry.step c s2).1
  ∧ same_view (Registry.step c s1).2 (Registry.step c s2).2.
Proof.
  destruct s1 as [self w1], s2 as [self2 w2]. intros [Hself Htable]; simpl in *. subst self2.
  destruct c as [config|config]; simpl.
  - destruct (table_of self w1 !! key_of config (configspace_ext self)) as [i|] eqn:Hi.
    + rewrite (add_config_Some self w1 config i) by done.
      rewrite (add_config_Some self w2 config i) by by rewrite <-Htable.
      done.
    + rewrite (add_config_None self w1) by done.
      rewrite (add_config_None self w2) by by rewrite <-Htable.
      split; [done|]. unfold same_view. cbn [fst snd]. split; [done|].
      rewrite !table_of_inserted. by rewrite Htable.
  - destruct (table_of self w1 !! key_of config (configspace_ext self)) as [i|] eqn:Hi.
    + rewrite (config_id_Some self w1 config i) by done.
      rewrite (config_id_Some self w2 config i) by by rewrite <-Htable.
      done.
    + rewrite (config_id_None self w1) by done.
      rewrite (config_id_None self w2) by by rewrite <-Htable.
      done.
Qed.

Lemma run_same_view cs s1 s2 :
  same_view s1 s2 → (Registry.run cs s1).1 = (Registry.run cs s2).1.
Proof.
  revert s1 s2. induction cs as [|c cs IH]; intros s1 s2 Hs; simpl; [done|].
  destruct (step_same_view c s1 s2 Hs) as [Ha Hs'].
  destruct (Registry.step c s1) as [a1 s1'], (Registry.step c s2) as [a2 s2'].
  simpl in *. subst a2. specialize (IH _ _ Hs').
  destruct (Registry.run cs s1'), (Registry.run cs s2'). simpl in *. by subst.
Qed.

(** The printer hands both operations to its registry; it restores only
    between blocks, and then drops whatever parts were left. *)
Lemma printer_get_mutable_state (self : DebugLogPrinter.t) (w : World) :
  DebugLogPrinter.get_mutable_state (self, w)
  = (Return {| st_config_counter := config_counter (DebugLogPrinter.config_counter self);
               st_config_id := _config_id (DebugLogPrinter.config_counter self) |},
     (self, w)).
Proof. by destruct self. Qed.

Lemma printer_set_mutable_state (state : mutable_state) (self : DebugLogPrinter.t)
    (w : World) :
  DebugLogPrinter.set_mutable_state state (self, w)
  = match DebugLogPrinter.get_config_type self with
    | Some _ => (Raise (AssertionError BlockCurrentlyOpen), (self, w))
    | None =>
        (Return (),
         ({| DebugLogPrinter.config_counter :=
               {| config_counter := st_config_counter state;
                  _config_id := st_config_id state;
                  configspace_ext :=
                    configspace_ext (DebugLogPrinter.config_counter self) |};
             DebugLogPrinter.block_info := ∅;
             DebugLogPrinter.get_config_type := None |}, w))
    end.
Proof.
  unfold DebugLogPrinter.set_mutable_state. run_M.
  by destruct self as [cc b [kind|]].
Qed.

(** C6 (amended).  Exporting the state of a registry whose table is a live
    object and restoring it into a fresh registry built with the same
    resource attribute gives a registry with the counter, the table object
    (shared, not copied) and the attribute of the first; any sequence of
    [config_id] and [add_config] calls made on it alone answers as the same
    sequence would have on the exported registry. *)
Theorem restore_export_same_registry (self : ConfigCounter.t) (w : World)
    (cs : list Registry.call) :
  _config_id self ∈ dom (dicts w) →
  (TwoRegistries.restored (self, w) (configspace_ext self)).1.1 = self
  ∧ (TwoRegistries.restored (self, w) (configspace_ext self)).1.2 = self
  ∧ table_of self (TwoRegistries.restored (self, w) (configspace_ext self)).2
    = table_of self w
  ∧ (Registry.run cs (self, (TwoRegistries.restored (self, w) (configspace_ext self)).2)).1
    = (Registry.run cs (self, w)).1.
Proof.
  intros Hlive.
  assert ((TwoRegistries.restored (self, w) (configspace_ext self))
          = (self, self, store_dict (fresh (dom (dicts w))) ∅ w)) as ->.
  { by destruct self. }
  assert (table_of self (store_dict (fresh (dom (dicts w))) ∅ w) = table_of self w) as Htable.
  { unfold table_of, deref, store_dict; simpl.
    apply lookup_total_insert_ne. intros Heq.
    apply (is_fresh (dom (dicts w))). by rewrite Heq. }
  split_and!; [done..|].
  by apply run_same_view.
Qed.

Lemma restore_export_same_registry_witness :
  (Registry.run [Registry.ConfigId x1_r9; Registry.AddConfig x2; Registry.AddConfig x1]
     (registry1.1, (TwoRegistries.restored (registry1.1, registry1.2)
                      (configspace_ext registry1.1)).2)).1
  = (Registry.run [Registry.ConfigId x1_r9; Registry.AddConfig x2; Registry.AddConfig x1]
       (registry1.1, registry1.2)).1.
Proof.
  apply (restore_export_same_registry registry1.1 registry1.2
           [Registry.ConfigId x1_r9; Registry.AddConfig x2; Registry.AddConfig x1]).
  apply (bool_decide_unpack _). vm_compute. exact I.
Defined.

(** C6 does not hold as stated.  The table is shared: an insert made on
    the exported registry makes the same insert fail on the restored one.
    And the resource attribute is not part of the state: restored into a
    registry built without it, a resource-extended configuration is not
    found. *)
Lemma restore_shares_table_and_keeps_extractor :
  ((TwoRegistries.on_first (add_config x2) shared_pair).1 = Return (x2, None)
   ∧ (TwoRegistries.on_second (add_config x2)
        (TwoRegistries.on_first (add_config x2) shared_pair).2).1
     = Raise (AssertionError ConfigAlreadyAssigned))
  ∧ ((TwoRegistries.on_first (config_id x1_r5) mismatched_pair).1 = Return "0:5"
     ∧ (TwoRegistries.on_second (config_id x1_r5) mismatched_pair).1
       = Raise (KeyError "(5, 1)")).
Proof. vm_compute. repeat split; reflexivity. Qed.

End restore.

(** ** The restricted unpickler *)

Section unpickler.
Import RestrictedUnpickler.

Lemma safe_builtins_elem name :
  name ∈ safe_builtins ↔ name ∈ ["range"; "complex"; "set"; "frozenset"; "slice"].
Proof.
  unfold safe_builtins.
  rewrite !elem_of_union, !elem_of_singleton, !elem_of_cons, elem_of_nil.
  tauto.
Qed.

Lemma find_class_eq module name :
  find_class module name
  = if bool_decide (allowed module name)
    then Return (BuiltinAttr name) else Raise (forbidden module name).
Proof.
  unfold find_class.
  destruct (decide (allowed module name)) as [[Hm Hn]|Hnot].
  - rewrite (bool_decide_true (allowed _ _)) by done.
    rewrite (bool_decide_true (module = _)) by done.
    by rewrite (bool_decide_true (name ∈ _)) by by apply safe_builtins_elem.
  - rewrite (bool_decide_false (allowed _ _)) by done.
    case_bool_decide as Hm; [|done].
    case_bool_decide as Hn; [|done].
    destruct Hnot. split; [done|]. by apply safe_builtins_elem.
Qed.

(** C10.  [find_class] returns the builtin of that name exactly when the
    module is [builtins] and the name is one of [range], [complex], [set],
    [frozenset] and [slice], and raises [UnpicklingError] otherwise; so a
    load resolves only globals of that list, and fails at the first other
    one. *)
Theorem find_class_allow_list (module name : string) :
  find_class module name
  = (if bool_decide (allowed module name)
     then Return (BuiltinAttr name) else Raise (forbidden module name))
  ∧ ∀ refs,
      match resolve_globals refs with
      | Return objs =>
          Forall (λ ref, allowed ref.1 ref.2) refs
          ∧ objs = (λ ref, BuiltinAttr ref.2) <$> refs
      | Raise e =>
          ∃ ref, ref ∈ refs ∧ ¬ allowed ref.1 ref.2 ∧ e = forbidden ref.1 ref.2
      end.
Proof.
  split; [apply find_class_eq|].
  induction refs as [|[m n] refs IH]; simpl; [done|].
  rewrite find_class_eq. case_bool_decide as Hmn.
  - destruct (resolve_globals refs) as [objs|e].
    + destruct IH as [Hall ->]. split; [by constructor|done].
    + destruct IH as (ref & Hin & Hnot & ->). exists ref. split; [by right|done].
  - exists (m, n). split; [by left|done].
Qed.

End unpickler.

(** * Further properties *)

(** ** The registry along call sequences *)

Section registry_more.
Import ConfigCounter.
#[local] Arguments ConfigCounter.add_config : simpl never.
#[local] Arguments ConfigCounter.config_id : simpl never.
#[local] Arguments ConfigCounter.__init__ : simpl never.

Implicit Types (self : ConfigCounter.t) (w : World) (config : Dict.t)
  (s : Registry.state).

(** X1.  [config_id] never changes the registry, and a configuration whose
    key was never inserted makes it raise [KeyError] with that key: no
    identifier is assigned on lookup. *)
Theorem config_id_pure_lookup (config : Dict.t) (self : ConfigCounter.t) (w : World) :
  (config_id config (self, w)).2 = (self, w)
  ∧ (table_of self w !! key_of config (configspace_ext self) = None →
     (config_id config (self, w)).1
     = Raise (KeyError (key_of config (configspace_ext self)))).
Proof.
  split; [apply config_id_state|].
  intros Hnone. by rewrite config_id_None.
Qed.

Lemma config_id_pure_lookup_witness :
  (config_id x2 registry1).1 = Raise (KeyError "(2,)").
Proof.
  apply (proj2 (config_id_pure_lookup x2 registry1.1 registry1.2)).
  vm_compute. reflexivity.
Defined.

Lemma step_keeps_entries c s key i :
  table_of s.1 s.2 !! key = Some i →
  table_of (Registry.step c s).2.1 (Registry.step c s).2.2 !! key = Some i
  ∧ config_counter s.1 ≤ config_counter (Registry.step c s).2.1.
Proof.
  destruct s as [self w]. intros Hkey. destruct c as [config|config]; simpl.
  - destruct (table_of self w !! key_of config (configspace_ext self)) as [j|] eqn:Hj.
    + by erewrite add_config_Some.
    + rewrite add_config_None by done. cbn [fst snd].
      rewrite table_of_inserted. split; [|simpl; lia].
      rewrite lookup_insert_ne; [done|]. intros <-. simpl in *. congruence.
  - pose proof (config_id_state config (self, w)) as Hs.
    destruct (config_id config (self, w)) as [[?|?] s']; simpl in *; by subst.
Qed.

(** X2.  Identifiers are stable: along any sequence of [add_config] and
    [config_id] calls, whatever they answer, a key that has an identifier
    keeps it, and the counter never goes down. *)
Theorem identifiers_are_stable (cs : list Registry.call) (s : Registry.state)
    (key : string) (i : Z) :
  table_of s.1 s.2 !! key = Some i →
  table_of (Registry.run cs s).2.1 (Registry.run cs s).2.2 !! key = Some i
  ∧ config_counter s.1 ≤ config_counter (Registry.run cs s).2.1.
Proof.
  revert s. induction cs as [|c cs IH]; intros s Hkey; simpl; [done|].
  destruct (step_keeps_entries c s key i Hkey) as [Hkey' Hle].
  destruct (Registry.step c s) as [a s']. simpl in *.
  destruct (IH s' Hkey') as [Hkey'' Hle'].
  destruct (Registry.run cs s') as [as' s'']. simpl in *. split; [done|lia].
Qed.

Lemma identifiers_are_stable_witness :
  table_of (Registry.run [Registry.AddConfig x2; Registry.AddConfig x1_r9;
                          Registry.ConfigId x3] registry1).2.1
           (Registry.run [Registry.AddConfig x2; Registry.AddConfig x1_r9;
                          Registry.ConfigId x3] registry1).2.2 !! "(1,)" = Some 0.
Proof.
  apply (identifiers_are_stable
           [Registry.AddConfig x2; Registry.AddConfig x1_r9; Registry.ConfigId x3]
           registry1 "(1,)" 0).
  vm_compute. reflexivity.
Defined.

Lemma injective_inserted key self w :
  table_of self w !! key = None → dense (self, w) →
  table_injective (self, w) → table_injective (inserted key self w).
Proof.
  intros Hkey [_ Hlt] Hinj k1 k2 i. rewrite table_of_inserted. simpl.
  rewrite !lookup_insert. repeat case_decide; intros H1 H2; simplify_eq; try done.
  - apply Hlt in H2. simpl in H2. lia.
  - apply Hlt in H1. simpl in H1. lia.
  - by eapply Hinj.
Qed.

Lemma injective_step c s :
  dense s → table_injective s → table_injective (Registry.step c s).2.
Proof.
  destruct s as [self w]. intros Hd Hinj. destruct c as [config|config]; simpl.
  - destruct (table_of self w !! key_of config (configspace_ext self)) as [j|] eqn:Hj.
    + by erewrite add_config_Some.
    + rewrite add_config_None by done. by apply injective_inserted.
  - pose proof (config_id_state config (self, w)) as Hs.
    destruct (config_id config (self, w)) as [[?|?] s']; simpl in *; by subst.
Qed.

Lemma injective_run cs s :
  dense s → table_injective s → table_injective (Registry.run cs s).2.
Proof.
  revert s. induction cs as [|c cs IH]; intros s Hd Hinj; simpl; [done|].
  pose proof (dense_step c s Hd) as Hd'.
  pose proof (injective_step c s Hd Hinj) as Hinj'.
  destruct (Registry.step c s) as [a s']. simpl in *.
  specialize (IH s' Hd' Hinj').
  by destruct (Registry.run cs s').
Qed.

(** X3.  In a registry reached from a fresh one, no two canonical keys share
    an identifier, every identifier is at least zero and below the counter,
    and the counter is the number of entries. *)
Theorem reachable_table_injective (s : Registry.state) :
  registry_reachable s →
  table_injective s
  ∧ (∀ key i, table_of s.1 s.2 !! key = Some i → 0 ≤ i < config_counter s.1)
  ∧ config_counter s.1 = Z.of_nat (size (table_of s.1 s.2)).
Proof.
  intros (ext & w & cs & ->).
  pose proof (dense_run cs _ (dense_init ext w)) as [Hsize Hlt].
  split_and!; [|done..].
  apply injective_run; [apply dense_init|].
  intros k1 k2 i. rewrite table_of_init. by rewrite lookup_empty.
Qed.

Lemma reachable_table_injective_witness :
  table_injective registry1.
Proof.
  apply (reachable_table_injective registry1).
  exists ext_r, world0, [Registry.AddConfig x1_r5]. vm_compute. reflexivity.
Defined.

(** X4.  [_to_key] is idempotent on the dictionary it returns: the
    resource-stripped configuration has the key of the configuration it
    comes from, is its own stripped form, and carries no resource. *)
Theorem to_key_idempotent (config : Dict.t) (ext : option ExtendedConfiguration) :
  _to_key (stripped config ext) ext = (key_of config ext, stripped config ext, None).
Proof. apply stripped_stripped. Qed.

End registry_more.


(** ** The guards of the printer *)

Section printer_guards.
Import DebugLogPrinter.
#[local] Arguments ConfigCounter.add_config : simpl never.
#[local] Arguments ConfigCounter.config_id : simpl never.
#[local] Arguments ConfigCounter.__init__ : simpl never.
#[local] Arguments String.append : simpl never.
#[local] Arguments Py.join : simpl never.
#[local] Arguments Py.str_int : simpl never.
#[local] Arguments for_each : simpl never.
#[local] Arguments _to_key : simpl never.

Implicit Types (self : DebugLogPrinter.t) (w : World) (s : Printer.state).

(** X5.  [start_get_config] first checks the kind, then that no block is
    open: an unknown kind fails, and so does a second opening, whatever the
    two kinds; both leave printer and log as they were.  Between blocks a
    known kind opens the block and logs the identifier that the next
    insert will mint. *)
Theorem start_get_config_guards (gc_type : string) (self : DebugLogPrinter.t)
    (w : World) :
  (gc_type ∉ ["random"; "BO"] →
   start_get_config gc_type (self, w)
   = (Raise (AssertionError UnknownGetConfigType), (self, w)))
  ∧ (gc_type ∈ ["random"; "BO"] → is_Some (get_config_type self) →
     start_get_config gc_type (self, w)
     = (Raise (AssertionError BlockCurrentlyOpen), (self, w)))
  ∧ (gc_type ∈ ["random"; "BO"] → get_config_type self = None →
     start_get_config gc_type (self, w)
     = (Return (),
        ({| config_counter := config_counter self;
            block_info := block_info self;
            get_config_type := Some gc_type |},
         {| dicts := dicts w;
            logged := logged w
              ++ ["Starting get_config[" +:+ gc_type +:+ "] for config_id "
                  +:+ Py.str_int (ConfigCounter.config_counter (config_counter self))] |}))).
Proof.
  split_and!.
  - intros Hk. unfold start_get_config. run_M. by rewrite bool_decide_false.
  - intros Hk [k Hopen]. unfold start_get_config. run_M.
    rewrite bool_decide_true by done. by rewrite Hopen.
  - intros Hk Hidle. by rewrite start_get_config_idle.
Qed.

Lemma start_get_config_guards_witness :
  start_get_config "random" bo_opened
  = (Raise (AssertionError BlockCurrentlyOpen), bo_opened).
Proof.
  apply (proj1 (proj2 (start_get_config_guards "random" bo_opened.1 bo_opened.2))).
  - apply (bool_decide_unpack _). vm_compute. exact I.
  - exists "BO". vm_compute. reflexivity.
Defined.

(** X6.  Outside a BO block (in a random block, or with no block open) each
    of the six BO-only setters fails its assertion and changes nothing;
    [set_state] does not even look its configurations up. *)
Theorem bo_setters_need_bo_block (self : DebugLogPrinter.t) (w : World)
    (state : TuningJobState) (text : string) (config : Dict.t)
    (top_scores_str : option string) (num_evals : Z) :
  get_config_type self ≠ Some "BO" →
  set_state state (self, w) = (Raise (AssertionError NeedBOBlock), (self, w))
  ∧ set_targets text (self, w) = (Raise (AssertionError NeedBOBlock), (self, w))
  ∧ set_gp_params text (self, w) = (Raise (AssertionError NeedBOBlock), (self, w))
  ∧ set_fantasies text (self, w) = (Raise (AssertionError NeedBOBlock), (self, w))
  ∧ set_init_config config top_scores_str (self, w)
    = (Raise (AssertionError NeedBOBlock), (self, w))
  ∧ set_num_evaluations num_evals (self, w)
    = (Raise (AssertionError NeedBOBlock), (self, w)).
Proof.
  intros Hk.
  split_and!;
    [unfold set_state|unfold set_targets|unfold set_gp_params|unfold set_fantasies
    |unfold set_init_config|unfold set_num_evaluations];
    run_M; by rewrite bool_decide_false.
Qed.

Lemma bo_setters_need_bo_block_witness :
  set_targets "[0.5]" open_random
  = (Raise (AssertionError NeedBOBlock), open_random).
Proof.
  apply (bo_setters_need_bo_block open_random.1 open_random.2
           {| candidate_evaluations := []; pending_candidates := [] |}
           "[0.5]" [] None 0).
  vm_compute. discriminate.
Defined.

(** X8.  [set_final_config] with no block open fails before it reaches the
    registry; in an open block, a configuration whose key is already in the
    table fails as a duplicate.  In both cases printer, registry and log
    stay as they were. *)
Theorem set_final_config_guards (config : Dict.t) (self : DebugLogPrinter.t)
    (w : World) :
  (get_config_type self = None →
   set_final_config config (self, w)
   = (Raise (AssertionError NoBlockOpen), (self, w)))
  ∧ (is_Some (get_config_type self) →
     known (config_counter self) w config →
     set_final_config config (self, w)
     = (Raise (AssertionError ConfigAlreadyAssigned), (self, w))).
Proof.
  split.
  - apply set_final_config_idle.
  - intros [kind Hopen] [i Hi].
    rewrite (set_final_config_open _ _ _ kind) by done. by rewrite Hi.
Qed.

Lemma set_final_config_guards_witness :
  set_final_config x1 bo_opened
  = (Raise (AssertionError ConfigAlreadyAssigned), bo_opened).
Proof.
  apply (proj2 (set_final_config_guards x1 bo_opened.1 bo_opened.2)).
  - exists "BO". vm_compute. reflexivity.
  - exists 0. vm_compute. reflexivity.
Defined.

(** X9.  After a successful [set_final_config], the identifier of the
    finalized configuration is the counter minus one, the number that
    [write_block] puts in the header: [config_id] returns it as a bare
    integer, and the counter has moved by one. *)
Theorem final_config_has_header_id (config : Dict.t) (s s' : Printer.state) :
  set_final_config config s = (Return (), s') →
  DebugLogPrinter.config_id config s'
  = (Return (Py.str_int (ConfigCounter.config_counter (config_counter s'.1) - 1)), s')
  ∧ ConfigCounter.config_counter (config_counter s'.1)
    = ConfigCounter.config_counter (config_counter s.1) + 1.
Proof.
  destruct s as [self w].
  destruct (get_config_type self) as [kind|] eqn:Hopen.
  2:{ by rewrite set_final_config_idle. }
  rewrite (set_final_config_open _ _ _ kind) by done.
  destruct (ConfigCounter.table_of _ _ !! _) eqn:Hkey; [done|].
  destruct (resource_of _ _) eqn:Hres; [done|].
  intros [= <-]. split; [|done].
  unfold DebugLogPrinter.config_id. run_M.
  set (key := key_of config (ConfigCounter.configspace_ext (config_counter self))) in *.
  cbn [config_counter with_block_info with_config_counter].
  rewrite (config_id_Some (inserted key (config_counter self) w).1 _ _
             (ConfigCounter.config_counter (config_counter self))).
  2:{ rewrite table_of_inserted. apply lookup_insert_eq. }
  cbn [inserted fst ConfigCounter.configspace_ext ConfigCounter.config_counter].
  rewrite Hres. unfold identifier.
  replace (ConfigCounter.config_counter (config_counter self) + 1 - 1)
    with (ConfigCounter.config_counter (config_counter self)) by lia.
  done.
Qed.

Lemma final_config_has_header_id_witness :
  DebugLogPrinter.config_id x1 bo_opened = (Return "0", bo_opened).
Proof.
  apply (final_config_has_header_id x1 (Printer.run bo_before printer0) bo_opened).
  vm_compute. reflexivity.
Defined.

(** X11.  [set_configspace_ext] puts a fresh registry in place of the old
    one, also in the middle of a block: the counter is back at zero, every
    lookup raises [KeyError], and the block is kept as it is.  The table of
    the old registry is left untouched in the store. *)
Theorem set_configspace_ext_forgets (ext : ExtendedConfiguration)
    (self : DebugLogPrinter.t) (w : World) (config : Dict.t) :
  ConfigCounter._config_id (config_counter self) ∈ dom (dicts w) →
  ∃ self' w',
    set_configspace_ext ext (self, w) = (Return (), (self', w'))
    ∧ ConfigCounter.config_counter (config_counter self') = 0
    ∧ ConfigCounter.configspace_ext (config_counter self') = Some ext
    ∧ ConfigCounter.table_of (config_counter self') w' = ∅
    ∧ block_info self' = block_info self
    ∧ get_config_type self' = get_config_type self
    ∧ logged w' = logged w
    ∧ ConfigCounter.table_of (config_counter self) w'
      = ConfigCounter.table_of (config_counter self) w
    ∧ DebugLogPrinter.config_id config (self', w')
      = (Raise (KeyError (key_of config (Some ext))), (self', w')).
Proof.
  intros Hlive. unfold set_configspace_ext.
  pose proof (table_of_init (Some ext) w) as Hinit.
  destruct (ConfigCounter.__init__ (Some ext) w) as [cc w'] eqn:Hcc.
  exists (with_config_counter cc self), w'.
  unfold ConfigCounter.__init__, new_dict in Hcc. injection Hcc as <- <-.
  simpl in Hinit.
  split_and!; try done.
  - unfold ConfigCounter.table_of, deref, store_dict; simpl.
    apply lookup_total_insert_ne. intros Heq.
    apply (is_fresh (dom (dicts w))). by rewrite Heq.
  - unfold DebugLogPrinter.config_id. run_M.
    cbn [config_counter with_config_counter].
    rewrite config_id_None.
    + simpl. by destruct self.
    + simpl in *. rewrite Hinit. apply lookup_empty.
Qed.

Lemma set_configspace_ext_forgets_witness :
  ConfigCounter.config_counter
    (config_counter
       (set_configspace_ext {| resource_attr_name := "resource" |} bo_opened).2.1)
  = 0.
Proof.
  destruct (set_configspace_ext_forgets {| resource_attr_name := "resource" |}
              bo_opened.1 bo_opened.2 x1) as (self' & w' & Hset & Hzero & _).
  - apply (bool_decide_unpack _). vm_compute. exact I.
  - change bo_opened with (bo_opened.1, bo_opened.2). rewrite Hset. exact Hzero.
Defined.

(** X13.  [set_mutable_state] of the printer fails while a block is open and
    then changes nothing.  Between blocks it installs the counter and the
    table of the snapshot, keeps the resource attribute, and drops the
    parts that were collected; with the printer's own snapshot the registry
    is what it was. *)
Theorem printer_restore_between_blocks (state : ConfigCounter.mutable_state)
    (self : DebugLogPrinter.t) (w : World) :
  (is_Some (get_config_type self) →
   DebugLogPrinter.set_mutable_state state (self, w)
   = (Raise (AssertionError BlockCurrentlyOpen), (self, w)))
  ∧ (get_config_type self = None →
     DebugLogPrinter.set_mutable_state state (self, w)
     = (Return (),
        ({| config_counter :=
              {| ConfigCounter.config_counter := ConfigCounter.st_config_counter state;
                 ConfigCounter._config_id := ConfigCounter.st_config_id state;
                 ConfigCounter.configspace_ext :=
                   ConfigCounter.configspace_ext (config_counter self) |};
            block_info := ∅;
            get_config_type := None |}, w)))
  ∧ (get_config_type self = None →
     (snapshot ← DebugLogPrinter.get_mutable_state;
      DebugLogPrinter.set_mutable_state snapshot) (self, w)
     = (Return (),
        ({| config_counter := config_counter self;
            block_info := ∅;
            get_config_type := None |}, w))).
Proof.
  split_and!.
  - intros [kind Hopen]. rewrite printer_set_mutable_state. by rewrite Hopen.
  - intros Hidle. rewrite printer_set_mutable_state. by rewrite Hidle.
  - intros Hidle.
    change ((snapshot ← DebugLogPrinter.get_mutable_state;
             DebugLogPrinter.set_mutable_state snapshot) (self, w))
      with (match DebugLogPrinter.get_mutable_state (self, w) with
            | (Return a, s') => DebugLogPrinter.set_mutable_state a s'
            | (Raise e, s') => (Raise e, s')
            end).
    rewrite printer_get_mutable_state, printer_set_mutable_state, Hidle.
    simpl. by destruct (config_counter self).
Qed.

Lemma printer_restore_between_blocks_witness :
  DebugLogPrinter.set_mutable_state
    {| ConfigCounter.st_config_counter := 7; ConfigCounter.st_config_id := 1%positive |}
    bo_opened
  = (Raise (AssertionError BlockCurrentlyOpen), bo_opened).
Proof.
  apply (proj1 (printer_restore_between_blocks
                  {| ConfigCounter.st_config_counter := 7;
                     ConfigCounter.st_config_id := 1%positive |}
                  bo_opened.1 bo_opened.2)).
  exists "BO". vm_compute. reflexivity.
Defined.

End printer_guards.


(** ** Collecting and flushing *)

Section printer_more.
Import DebugLogPrinter.
#[local] Arguments ConfigCounter.add_config : simpl never.
#[local] Arguments ConfigCounter.config_id : simpl never.
#[local] Arguments ConfigCounter.__init__ : simpl never.
#[local] Arguments String.append : simpl never.
#[local] Arguments Py.join : simpl never.
#[local] Arguments Py.str_int : simpl never.
#[local] Arguments _to_key : simpl never.

Implicit Types (self : DebugLogPrinter.t) (w : World) (s : Printer.state).

Lemma join_merge sep a b l :
  Py.join sep ((a +:+ sep +:+ b) :: l) = Py.join sep (a :: b :: l).
Proof.
  unfold Py.join. destruct l as [|c l]; [done|].
  change (String.concat sep ((a +:+ sep +:+ b) :: c :: l))
    with ((a +:+ sep +:+ b) +:+ sep +:+ String.concat sep (c :: l)).
  change (String.concat sep (a :: b :: c :: l))
    with (a +:+ sep +:+ b +:+ sep +:+ String.concat sep (c :: l)).
  by rewrite !string_app_assoc.
Qed.

Lemma with_block_info_twice b1 b2 self :
  with_block_info b2 (with_block_info b1 self) = with_block_info b2 self.
Proof. done. Qed.

Lemma append_extra_Text extra old self w :
  block_info self !! "extra" = Some (Text old) →
  append_extra extra (self, w)
  = (Return (),
     (with_block_info (<["extra" := Text (old +:+ Py.nl +:+ extra)]> (block_info self))
        self, w)).
Proof. intros Hold. unfold append_extra. run_M. by rewrite Hold. Qed.

Lemma append_extra_None extra self w :
  block_info self !! "extra" = None →
  append_extra extra (self, w)
  = (Return (),
     (with_block_info (<["extra" := Text extra]> (block_info self)) self, w)).
Proof. intros Hold. unfold append_extra. run_M. by rewrite Hold. Qed.

Lemma append_extra_run xs old self w :
  block_info self !! "extra" = Some (Text old) →
  Printer.run (Printer.AppendExtra <$> xs) (self, w)
  = (with_block_info (<["extra" := Text (Py.join Py.nl (old :: xs))]> (block_info self))
       self, w).
Proof.
  revert old self. induction xs as [|x xs IH]; intros old self Hold.
  - simpl. rewrite insert_id by done. by destruct self.
  - rewrite fmap_cons, run_cons. cbn [Printer.step].
    rewrite (append_extra_Text x old) by done. cbn [snd].
    rewrite (IH (old +:+ Py.nl +:+ x)) by apply lookup_insert_eq.
    cbn [block_info with_block_info]. rewrite insert_insert_eq.
    by rewrite join_merge.
Qed.

(** X7.  [append_extra] asks for no open block and no kind: in any state,
    a first call stores its text and every further call appends a newline
    and its text, so after the calls the block holds the texts joined by
    newlines, in call order; nothing else changes. *)
Theorem append_extra_accumulates (x : string) (xs : list string)
    (self : DebugLogPrinter.t) (w : World) :
  block_info self !! "extra" = None →
  Printer.run (Printer.AppendExtra <$> x :: xs) (self, w)
  = ({| config_counter := config_counter self;
        block_info := <["extra" := Text (Py.join Py.nl (x :: xs))]> (block_info self);
        get_config_type := get_config_type self |}, w).
Proof.
  intros Hnone. rewrite fmap_cons, run_cons. cbn [Printer.step].
  rewrite append_extra_None by done. cbn [snd].
  rewrite (append_extra_run xs x) by apply lookup_insert_eq.
  cbn [block_info with_block_info]. by rewrite insert_insert_eq.
Qed.

Lemma append_extra_accumulates_witness :
  block_info (Printer.run (Printer.AppendExtra <$> ["a"; "b"; "c"]) printer0).1 !! "extra"
  = Some (Text (Py.join Py.nl ["a"; "b"; "c"])).
Proof.
  change printer0 with (printer0.1, printer0.2).
  rewrite (append_extra_accumulates "a" ["b"; "c"] printer0.1 printer0.2).
  - apply lookup_insert_eq.
  - vm_compute. reflexivity.
Defined.

(** *** [set_state] *)

Lemma printer_config_id_known config self w :
  known (config_counter self) w config →
  DebugLogPrinter.config_id config (self, w)
  = (Return (id_text (config_counter self) w config), (self, w)).
Proof.
  intros [i Hi]. unfold DebugLogPrinter.config_id. run_M.
  rewrite (config_id_Some _ _ _ i) by done.
  unfold id_text. rewrite Hi. simpl. by destruct self.
Qed.

Lemma printer_config_id_unknown config self w :
  ¬ known (config_counter self) w config →
  DebugLogPrinter.config_id config (self, w)
  = (Raise (KeyError (key_of config (ConfigCounter.configspace_ext (config_counter self)))),
     (self, w)).
Proof.
  intros Hno. unfold DebugLogPrinter.config_id. run_M.
  rewrite config_id_None.
  - by destruct self.
  - apply eq_None_not_Some. intros ?. by apply Hno.
Qed.

Lemma for_each_known configs self w :
  Forall (known (config_counter self) w) configs →
  for_each DebugLogPrinter.config_id configs (self, w)
  = (Return (id_text (config_counter self) w <$> configs), (self, w)).
Proof.
  induction 1 as [|config configs Hc _ IH]; [done|].
  cbn [for_each]. run_M. rewrite printer_config_id_known by done.
  by rewrite IH.
Qed.

Lemma for_each_unknown pre config post self w :
  Forall (known (config_counter self) w) pre →
  ¬ known (config_counter self) w config →
  for_each DebugLogPrinter.config_id (pre ++ config :: post) (self, w)
  = (Raise (KeyError (key_of config (ConfigCounter.configspace_ext (config_counter self)))),
     (self, w)).
Proof.
  intros Hpre Hno. induction Hpre as [|c pre Hc _ IH].
  - cbn [app for_each]. run_M. by rewrite printer_config_id_unknown.
  - cbn [app for_each]. run_M. rewrite printer_config_id_known by done.
    fold (@app Dict.t). by rewrite IH.
Qed.

(** X10.  In a BO block, [set_state] stores the identifiers of the labeled
    and of the pending configurations, comma-joined, in the order given,
    when all of them are known to the registry; an empty list leaves its
    segment empty.  Otherwise it raises [KeyError] with the key of the
    first unknown configuration, labeled ones first, and stores nothing. *)
Theorem set_state_renders_or_raises (state : TuningJobState)
    (self : DebugLogPrinter.t) (w : World) :
  get_config_type self = Some "BO" →
  (Forall (known (config_counter self) w)
     (candidate_evaluations state ++ pending_candidates state) →
   set_state state (self, w)
   = (Return (),
      ({| config_counter := config_counter self;
          block_info :=
            <["state" := Text (state_text (config_counter self) w state)]>
              (block_info self);
          get_config_type := Some "BO" |}, w)))
  ∧ (∀ pre config post,
       candidate_evaluations state ++ pending_candidates state
       = pre ++ config :: post →
       Forall (known (config_counter self) w) pre →
       ¬ known (config_counter self) w config →
       set_state state (self, w)
       = (Raise (KeyError (key_of config
                             (ConfigCounter.configspace_ext (config_counter self)))),
          (self, w))).
Proof.
  intros HBO. split.
  - intros [Hl Hp]%Forall_app. unfold set_state. run_M.
    rewrite HBO, bool_decide_true by done.
    rewrite (for_each_known _ _ _ Hl), (for_each_known _ _ _ Hp).
    unfold with_block_info, state_text. by rewrite HBO.
  - intros pre config post Heq Hpre Hno. unfold set_state. run_M.
    rewrite HBO, bool_decide_true by done.
    apply app_eq_inv in Heq as [(k & Hl & Hk)|(k & Hl & Hp)].
    + destruct k as [|c k]; simplify_eq/=.
      * (* all labeled configurations are known, the first pending is not *)
        rewrite app_nil_r in Hl. rewrite Hl, (for_each_known _ _ _ Hpre).
        rewrite <-Hk.
        pose proof (for_each_unknown [] config post self w (Forall_nil_2 _) Hno) as H.
        change ([] ++ config :: post) with (config :: post) in H. by rewrite H.
      * (* the unknown configuration is a labeled one *)
        rewrite Hl. by rewrite for_each_unknown.
    + (* all labeled configurations are known, a later pending one is not *)
      subst pre. apply Forall_app in Hpre as [Hl Hk].
      rewrite (for_each_known _ _ _ Hl), Hp. by rewrite for_each_unknown.
Qed.

Lemma set_state_renders_or_raises_witness :
  (set_state {| candidate_evaluations := [x1]; pending_candidates := [x2] |}
     bo_opened).1
  = Raise (KeyError "(2,)").
Proof.
  rewrite (surjective_pairing bo_opened).
  rewrite (proj2 (set_state_renders_or_raises
                    {| candidate_evaluations := [x1]; pending_candidates := [x2] |}
                    bo_opened.1 bo_opened.2 eq_refl) [x1] x2 []).
  - reflexivity.
  - reflexivity.
  - repeat constructor. exists 0. vm_compute. reflexivity.
  - intros [i Hi]. vm_compute in Hi. discriminate.
Defined.

End printer_more.


(** ** Flushes and iterations *)

Section printer_flush.
Import DebugLogPrinter.
#[local] Arguments ConfigCounter.add_config : simpl never.
#[local] Arguments ConfigCounter.config_id : simpl never.
#[local] Arguments ConfigCounter.__init__ : simpl never.
#[local] Arguments String.append : simpl never.
#[local] Arguments Py.join : simpl never.
#[local] Arguments Py.str_int : simpl never.
#[local] Arguments _to_key : simpl never.

Implicit Types (self : DebugLogPrinter.t) (w : World) (s : Printer.state).

Lemma expected_parts_logs b names parts self w :
  ∃ o msgs, expected_parts b names parts (self, w) = (o, (self, log_all msgs w)).
Proof.
  revert parts w. induction names as [|name names IH]; intros parts w; cbn [expected_parts].
  { exists (Return parts), []. by rewrite log_all_nil. }
  destruct (b !! name); [apply IH|]. run_M.
  destruct (IH parts (log_info ("debug_log.write_block: '" +:+ name +:+ "' part is missing!") w))
    as (o & msgs & Hmsgs).
  exists o, (("debug_log.write_block: '" +:+ name +:+ "' part is missing!") :: msgs).
  rewrite Hmsgs. do 2 f_equal. unfold log_all, log_info; simpl. by rewrite <-app_assoc.
Qed.

#[local] Arguments expected_parts : simpl never.
#[local] Arguments append_if_present : simpl never.
#[local] Arguments texts : simpl never.

Lemma write_block_outcomes self w :
  (∃ e msgs, write_block (self, w) = (Raise e, (self, log_all msgs w)))
  ∨ (∃ msgs, write_block (self, w) = (Return (), (flushed self, log_all msgs w))).
Proof.
  destruct (get_config_type self) as [kind|] eqn:Hkind.
  2:{ rewrite write_block_idle by done. left. exists (AssertionError NoBlockOpen), [].
      by rewrite log_all_nil. }
  destruct (block_info self !! "final_config") as [fc|] eqn:Hfc.
  2:{ erewrite write_block_unfinalized by done. left. exists (KeyError "final_config"), [].
      by rewrite log_all_nil. }
  unfold write_block. run_M. rewrite Hkind, Hfc.
  case_bool_decide.
  - match goal with |- context [expected_parts ?b ?ns ?ps ?s] =>
      destruct (expected_parts_logs b ns ps self w) as (o & msgs & ->)
    end.
    destruct o as [ps'|e]; [|left; eauto].
    destruct (texts _) as [ss|]; [right|left; eauto].
    exists (msgs ++ [Py.join Py.nl ss]). unfold flushed, log_all, log_info; simpl.
    by rewrite <-app_assoc.
  - destruct (texts _) as [ss|].
    + right. by exists [Py.join Py.nl ss].
    + left. exists TypeError, []. by rewrite log_all_nil.
Qed.

(** X12.  [write_block] never touches the registry: whatever it answers, the
    counter and the tables in the store are what they were, and the log
    only grows.  When it raises, the printer is left as it was, block and
    parts included, so the block can still be completed and flushed. *)
Theorem write_block_keeps_registry (self : DebugLogPrinter.t) (w : World) :
  config_counter (write_block (self, w)).2.1 = config_counter self
  ∧ dicts (write_block (self, w)).2.2 = dicts w
  ∧ (∃ msgs, logged (write_block (self, w)).2.2 = logged w ++ msgs)
  ∧ ∀ e, (write_block (self, w)).1 = Raise e → (write_block (self, w)).2.1 = self.
Proof.
  destruct (write_block_outcomes self w) as [(e & msgs & ->)|(msgs & ->)]; simpl.
  - split_and!; [done|done|by exists msgs|done].
  - split_and!; [done|done|by exists msgs|done].
Qed.

Lemma write_block_keeps_registry_witness :
  (write_block open_random).2.1 = open_random.1.
Proof.
  apply (proj2 (proj2 (proj2 (write_block_keeps_registry open_random.1 open_random.2)))
           (KeyError "final_config")).
  vm_compute. reflexivity.
Defined.

Lemma table_of_log_info cc msg w :
  ConfigCounter.table_of cc (log_info msg w) = ConfigCounter.table_of cc w.
Proof. done. Qed.

Lemma table_of_relogged cc w msgs :
  ConfigCounter.table_of cc {| dicts := dicts w; logged := msgs |}
  = ConfigCounter.table_of cc w.
Proof. done. Qed.

Lemma block_wf_final_config lines :
  block_wf (<["final_config" := Text lines]> ∅).
Proof. apply block_wf_insert; [by right|apply block_wf_empty]. Qed.

(** One iteration from a printer between blocks, with nothing collected. *)
Lemma iteration_run kc self w :
  get_config_type self = None → block_info self = ∅ →
  kc.1 ∈ ["random"; "BO"] →
  resource_of kc.2 (ConfigCounter.configspace_ext (config_counter self)) = None →
  ConfigCounter.table_of (config_counter self) w
    !! key_of kc.2 (ConfigCounter.configspace_ext (config_counter self)) = None →
  Printer.run (iteration kc) (self, w)
  = ({| config_counter :=
          (inserted (key_of kc.2 (ConfigCounter.configspace_ext (config_counter self)))
             (config_counter self) w).1;
        block_info := ∅;
        get_config_type := None |},
     {| dicts :=
          dicts (inserted (key_of kc.2 (ConfigCounter.configspace_ext (config_counter self)))
                   (config_counter self) w).2;
        logged :=
          logged w
          ++ iteration_log (ConfigCounter.config_counter (config_counter self)) kc |}).
Proof.
  destruct kc as [kind config]. simpl fst; simpl snd.
  intros Hidle Hempty Hkind Hres Hkey.
  unfold iteration, Printer.run. cbn [foldl flip Printer.step fst snd].
  rewrite start_get_config_idle by done. cbn [snd].
  rewrite (set_final_config_open _ _ _ kind) by done.
  cbn [config_counter with_get_config_type block_info].
  rewrite table_of_log_info, Hkey, Hres. cbn [snd].
  erewrite write_block_finalized; [|done|apply lookup_insert_eq|].
  2:{ cbn [block_info with_block_info]. rewrite Hempty. apply block_wf_final_config. }
  cbn [snd fst block_info with_block_info with_config_counter config_counter flushed].
  rewrite Hempty, insert_empty.
  unfold iteration_log, log_all, inserted, store_dict, log_info; simpl.
  replace (ConfigCounter.config_counter (config_counter self) + 1 - 1)
    with (ConfigCounter.config_counter (config_counter self)) by lia.
  by rewrite <-!app_assoc.
Qed.

Lemma iterations_run l self w :
  get_config_type self = None → block_info self = ∅ →
  Forall (λ kc, kc.1 ∈ ["random"; "BO"]) l →
  Forall (λ kc, resource_of kc.2 (ConfigCounter.configspace_ext (config_counter self))
                = None) l →
  NoDup ((λ kc, key_of kc.2 (ConfigCounter.configspace_ext (config_counter self))) <$> l) →
  Forall (λ kc, ConfigCounter.table_of (config_counter self) w
                  !! key_of kc.2 (ConfigCounter.configspace_ext (config_counter self))
                = None) l →
  logged (Printer.run (mjoin (iteration <$> l)) (self, w)).2
  = logged w ++ iterations_log (ConfigCounter.config_counter (config_counter self)) l
  ∧ get_config_type (Printer.run (mjoin (iteration <$> l)) (self, w)).1 = None
  ∧ block_info (Printer.run (mjoin (iteration <$> l)) (self, w)).1 = ∅
  ∧ ConfigCounter.config_counter
      (config_counter (Printer.run (mjoin (iteration <$> l)) (self, w)).1)
    = ConfigCounter.config_counter (config_counter self) + Z.of_nat (length l).
Proof.
  revert self w. induction l as [|kc l IH]; intros self w Hidle Hempty Hkinds Hres Hnd Hnew.
  { simpl. rewrite app_nil_r. split_and!; [done..|lia]. }
  change (mjoin (iteration <$> kc :: l)) with (iteration kc ++ mjoin (iteration <$> l)).
  rewrite run_app.
  apply Forall_cons in Hkinds as [Hkind Hkinds].
  apply Forall_cons in Hres as [Hres1 Hres].
  apply Forall_cons in Hnew as [Hnew1 Hnew].
  rewrite fmap_cons in Hnd. apply NoDup_cons in Hnd as [Hnotin Hnd].
  rewrite iteration_run by done.
  set (ext := ConfigCounter.configspace_ext (config_counter self)) in *.
  set (key := key_of kc.2 ext) in *.
  edestruct (IH {| config_counter := (inserted key (config_counter self) w).1;
                   block_info := ∅; get_config_type := None |}) as (Hlog & Hk & Hb & Hc);
    [done|done|done|exact Hres|exact Hnd| |].
  - (* the keys to come are still new *)
    apply Forall_forall. intros kc' Hin.
    cbn [config_counter]. rewrite table_of_relogged.
    rewrite table_of_inserted. cbn [config_counter inserted fst ConfigCounter.configspace_ext].
    fold ext. rewrite lookup_insert_ne.
    + rewrite Forall_forall in Hnew. by apply Hnew.
    + intros Heq. apply Hnotin. apply list_elem_of_fmap. by exists kc'.
  - rewrite Hlog, Hk, Hb, Hc. cbn [logged iterations_log config_counter inserted fst
      ConfigCounter.config_counter length].
    split_and!; [by rewrite <-app_assoc|done|done|lia].
Qed.

(** X14.  A search loop that, from a fresh printer, runs one block per
    configuration (open, finalize, flush) over configurations without
    resource value and with pairwise distinct keys, logs for the n-th block
    the opening record with identifier n-1 and a report headed by the same
    n-1 (after the diagnostics of a BO block), and ends between blocks,
    with nothing collected and the counter at the number of blocks. *)
Theorem iterations_report_consecutive_ids (ext : option ExtendedConfiguration)
    (w0 : World) (l : list (string * Dict.t)) :
  Forall (λ kc, kc.1 ∈ ["random"; "BO"]) l →
  Forall (λ kc, resource_of kc.2 ext = None) l →
  NoDup ((λ kc, key_of kc.2 ext) <$> l) →
  logged (Printer.run (mjoin (iteration <$> l)) (__init__ ext w0)).2
  = logged w0 ++ iterations_log 0 l
  ∧ get_config_type (Printer.run (mjoin (iteration <$> l)) (__init__ ext w0)).1 = None
  ∧ block_info (Printer.run (mjoin (iteration <$> l)) (__init__ ext w0)).1 = ∅
  ∧ ConfigCounter.config_counter
      (config_counter (Printer.run (mjoin (iteration <$> l)) (__init__ ext w0)).1)
    = Z.of_nat (length l).
Proof.
  intros Hkinds Hres Hnd.
  pose proof (table_of_init ext w0) as Hinit.
  unfold __init__. unfold ConfigCounter.__init__, new_dict in *. simpl in Hinit.
  edestruct (iterations_run l
               {| config_counter :=
                    {| ConfigCounter.config_counter := 0;
                       ConfigCounter._config_id := fresh (dom (dicts w0));
                       ConfigCounter.configspace_ext := ext |};
                  block_info := ∅; get_config_type := None |}
               (store_dict (fresh (dom (dicts w0))) ∅ w0))
    as (Hlog & Hk & Hb & Hc); [done|done|done|exact Hres|exact Hnd| |].
  - apply Forall_forall. intros kc _. cbn [config_counter]. rewrite Hinit.
    apply lookup_empty.
  - rewrite Hlog, Hk, Hb, Hc. split_and!; [done..|simpl; lia].
Qed.

Lemma iterations_report_consecutive_ids_witness :
  logged (Printer.run (mjoin (iteration <$> [("random", x1_y2); ("BO", x3)]))
            (__init__ None world0)).2
  = logged world0 ++ iterations_log 0 [("random", x1_y2); ("BO", x3)].
Proof.
  apply (iterations_report_consecutive_ids None world0 [("random", x1_y2); ("BO", x3)]).
  - apply (bool_decide_unpack _). vm_compute. exact I.
  - repeat constructor.
  - apply (bool_decide_unpack _). vm_compute. exact I.
Defined.

End printer_flush.


(** ** The registry of the printer *)

Section printer_registry.
Import DebugLogPrinter.
#[local] Arguments ConfigCounter.add_config : simpl never.
#[local] Arguments ConfigCounter.config_id : simpl never.
#[local] Arguments ConfigCounter.__init__ : simpl never.
#[local] Arguments String.append : simpl never.
#[local] Arguments Py.join : simpl never.
#[local] Arguments Py.str_int : simpl never.
#[local] Arguments _to_key : simpl never.
#[local] Arguments for_each : simpl never.

Implicit Types (self : DebugLogPrinter.t) (w : World) (s : Printer.state).

Lemma registry_effect_step c s :
  restores_snapshot c = false →
  registry_effect s (Printer.step c s).
Proof.
  destruct s as [self w]. intros Hc. unfold registry_effect.
  destruct c; try done; cbn [Printer.step fst snd].
  - (* set_configspace_ext *)
    right; right. exists (Some ext). unfold set_configspace_ext.
    by destruct (ConfigCounter.__init__ (Some ext) w).
  - rewrite printer_config_id_state. by left.
  - (* start_get_config *)
    unfold start_get_config. run_M.
    case_bool_decide; [|by left].
    destruct (get_config_type self); by left.
  - (* set_final_config *)
    destruct (get_config_type self) as [kind|] eqn:Hopen.
    2:{ rewrite set_final_config_idle by done. by left. }
    rewrite (set_final_config_open _ _ _ kind) by done.
    destruct (ConfigCounter.table_of _ _ !! _) eqn:Hkey; [by left|].
    right; left. eexists. split; [done|].
    by destruct (resource_of _ _).
  - (* set_state *)
    unfold set_state. run_M. case_bool_decide; [|by left].
    pose proof (for_each_config_id_state (candidate_evaluations state) (self, w)) as H1.
    destruct (for_each _ (candidate_evaluations state) _) as [[l|e] s1];
      simpl in *; subst; [|by left].
    pose proof (for_each_config_id_state (pending_candidates state) (self, w)) as H2.
    destruct (for_each _ (pending_candidates state) _) as [[p|e] s2];
      simpl in *; subst; by left.
  - unfold set_targets. run_M. case_bool_decide; by left.
  - unfold set_gp_params. run_M. case_bool_decide; by left.
  - unfold set_fantasies. run_M. case_bool_decide; by left.
  - unfold set_init_config. run_M. case_bool_decide; [|by left].
    destruct (_to_key _ _) as [[? d] ?]. by left.
  - unfold set_num_evaluations. run_M. case_bool_decide; by left.
  - unfold append_extra. run_M.
    destruct (block_info self !! "extra") as [[old|n]|]; by left.
  - destruct (write_block_outcomes self w) as [(e & msgs & ->)|(msgs & ->)]; by left.
Qed.

Lemma dense_same_registry cc w w' :
  dicts w' = dicts w → dense (cc, w) → dense (cc, w').
Proof.
  unfold dense, ConfigCounter.table_of, deref. simpl. by intros ->.
Qed.

Lemma injective_same_registry cc w w' :
  dicts w' = dicts w → table_injective (cc, w) → table_injective (cc, w').
Proof.
  unfold table_injective, ConfigCounter.table_of, deref. simpl. by intros ->.
Qed.

Lemma table_injective_init ext w : table_injective (ConfigCounter.__init__ ext w).
Proof. intros k1 k2 i. rewrite table_of_init. by rewrite lookup_empty. Qed.

Lemma registry_inv_step c s :
  restores_snapshot c = false →
  dense (registry_of s) ∧ table_injective (registry_of s) →
  dense (registry_of (Printer.step c s))
  ∧ table_injective (registry_of (Printer.step c s)).
Proof.
  intros Hc [Hd Hi].
  destruct (registry_effect_step c s Hc)
    as [[Hcc Hw]|[(key & Hkey & Hs)|(ext & Hs)]]; unfold registry_of in *.
  - rewrite Hcc. split.
    + by apply (dense_same_registry _ s.2).
    + by apply (injective_same_registry _ s.2).
  - rewrite Hs. split.
    + by apply dense_inserted.
    + by apply injective_inserted.
  - rewrite Hs. split; [apply dense_init|apply table_injective_init].
Qed.

(** X19.  The printer keeps its registry sound: from a fresh printer, along
    any sequence of calls that does not restore a snapshot, whatever the
    calls answer, the counter is the number of entries of the table, every
    identifier is at least zero and below the counter, and no two keys
    share an identifier. *)
Theorem printer_keeps_registry_sound (ext : option ExtendedConfiguration)
    (w0 : World) (cs : list Printer.call) :
  Forall (λ c, restores_snapshot c = false) cs →
  dense (registry_of (Printer.run cs (__init__ ext w0)))
  ∧ table_injective (registry_of (Printer.run cs (__init__ ext w0))).
Proof.
  intros Hcs.
  assert (dense (registry_of (__init__ ext w0))
          ∧ table_injective (registry_of (__init__ ext w0))) as Hinit.
  { unfold registry_of, __init__.
    pose proof (dense_init ext w0) as Hd.
    pose proof (table_injective_init ext w0) as Hi.
    by destruct (ConfigCounter.__init__ ext w0). }
  revert Hinit. generalize (__init__ ext w0).
  induction Hcs as [|c cs Hc _ IH]; intros s Hs; [done|].
  rewrite run_cons. apply IH. by apply registry_inv_step.
Qed.

Lemma printer_keeps_registry_sound_witness :
  dense (registry_of (Printer.run (scenario_A ++ scenario_B) (__init__ None world0))).
Proof.
  apply (printer_keeps_registry_sound None world0 (scenario_A ++ scenario_B)).
  repeat constructor.
Defined.

End printer_registry.


(** ** Loading pickles *)

Section load_pkl.
Import LoadPkl.

Context {Obj : Type}.
Implicit Types (env : Env Obj) (path : string) (format : option string)
  (verbose : bool) (depth : nat).

Lemma effective_format_pointer env path format :
  endswith path ".pointer" = true →
  effective_format env path format = Some "pointer".
Proof. intros Hp. unfold effective_format. by rewrite Hp. Qed.

Lemma effective_format_local env path format :
  endswith path ".pointer" = false → is_s3_url env path = false →
  effective_format env path format = format.
Proof. intros Hp Hs. unfold effective_format. by rewrite Hp, Hs. Qed.

Lemma load_pointer_step env depth path format verbose content_path :
  endswith path ".pointer" = true →
  get_pointer_content env path = Ok content_path →
  content_path ≠ path →
  load env (S depth) path format verbose = load env depth content_path None true
  ∧ ∀ pickle_fn,
      load_with_fn env (S depth) path pickle_fn format verbose
      = load_with_fn env depth content_path pickle_fn None true.
Proof.
  intros Hp Hc Hne. split; [|intros pickle_fn]; cbn [load load_with_fn];
    rewrite effective_format_pointer by done;
    rewrite bool_decide_true by done; rewrite Hc;
    by rewrite bool_decide_false by done.
Qed.

(** X15.  Pointer files that lead only to pointer files never load: when
    every path of a set ends in [.pointer] and holds a path of the set,
    [load] and [load_with_fn] raise [RecursionError] on each of them, for
    every depth that the interpreter allows and whatever [format] and
    [verbose] are, and log nothing. *)
Theorem load_pointer_cycle (env : Env Obj) (cyclic : string → Prop) :
  (∀ p, cyclic p →
        endswith p ".pointer" = true
        ∧ ∃ q, get_pointer_content env p = Ok q ∧ cyclic q) →
  ∀ depth path format verbose pickle_fn,
    cyclic path →
    (∃ msg, load env depth path format verbose = (Err (RecursionError msg), []))
    ∧ (∃ msg, load_with_fn env depth path pickle_fn format verbose
              = (Err (RecursionError msg), [])).
Proof.
  intros Hcyc depth. induction depth as [|depth IH];
    intros path format verbose pickle_fn Hpath.
  { split; eexists; reflexivity. }
  destruct (Hcyc path Hpath) as (Hp & q & Hq & Hcq).
  destruct (decide (q = path)) as [->|Hne].
  - split; eexists; cbn [load load_with_fn];
      rewrite effective_format_pointer by done;
      rewrite bool_decide_true by done; rewrite Hq;
      by rewrite bool_decide_true by done.
  - destruct (load_pointer_step env depth path format verbose q Hp Hq Hne) as [-> ->].
    by apply IH.
Qed.

Lemma drop_length_all {A} (l : list A) : drop (length l) l = [].
Proof. by apply drop_ge. Qed.

(** X16.  On a local path (no [.pointer] suffix, not an S3 URL, no format
    that says otherwise) [load] gives the whole file to [restricted_loads],
    drops its result, and then calls [pickle.load] on the file object that
    has already been read to its end: what it returns does not depend on
    the bytes of the file beyond their passing [restricted_loads].  With an
    unpickler that raises [EOFError] at the end of its input, such a load
    never returns an object. *)
Theorem load_local_reads_exhausted_stream (env : Env Obj) (depth : nat)
    (path : string) (format : option string) (verbose : bool) (content : bytes) :
  endswith path ".pointer" = false → is_s3_url env path = false →
  format ≠ Some "pointer" → format ≠ Some "s3" →
  open_rb env path = Ok content →
  load env (S depth) path format verbose
  = (match restricted_loads env content with
     | Err e => Err e
     | Ok _ => pickle_load env []
     end, loading verbose path)
  ∧ (pickle_load env [] = Err EOFError →
     ∀ o, (load env (S depth) path format verbose).1 ≠ Ok o).
Proof.
  intros Hp Hs Hfp Hfs Hopen.
  assert (load env (S depth) path format verbose
          = (match restricted_loads env content with
             | Err e => Err e
             | Ok _ => pickle_load env []
             end, loading verbose path)) as Hload.
  { cbn [load]. rewrite effective_format_local by done.
    rewrite !bool_decide_false by done. rewrite Hopen.
    unfold read, rest. cbn [data pos]. rewrite drop_0, drop_length_all.
    by destruct (restricted_loads env content). }
  split; [done|].
  intros Heof o. rewrite Hload. cbn [fst]. rewrite Heof.
  by destruct (restricted_loads env content).
Qed.

(** X17.  Through a chain of pointer files, [load] and [load_with_fn] do
    what a direct call on the target of the chain does with the default
    arguments: the [format] and the [verbose] of the caller are not passed
    on, so the target is loaded with [verbose] on even when the caller
    turned it off.  The chain takes one call per pointer. *)
Theorem load_follows_pointer_chain (env : Env Obj) (ps : list string)
    (target : string) (depth : nat) (format : option string) (verbose : bool) :
  ps ≠ [] → pointer_chain env ps target →
  load env (length ps + depth) (hd target ps) format verbose
  = load env depth target None true
  ∧ ∀ pickle_fn,
      load_with_fn env (length ps + depth) (hd target ps) pickle_fn format verbose
      = load_with_fn env depth target pickle_fn None true.
Proof.
  revert format verbose. induction ps as [|p ps IH]; intros format verbose Hne Hchain;
    [done|].
  destruct Hchain as (Hp & Hc & Hnp & Hchain).
  change (length (p :: ps) + depth)%nat with (S (length ps + depth)).
  cbn [hd].
  destruct (load_pointer_step env (length ps + depth) p format verbose _ Hp Hc Hnp)
    as [Hl Hw].
  destruct ps as [|q ps].
  - split; [apply Hl|apply Hw].
  - destruct (IH None true) as [IHl IHw]; [done|done|].
    split.
    + rewrite Hl. apply IHl.
    + intros pickle_fn. rewrite Hw. apply IHw.
Qed.

(** X18.  [load_with_fn] never runs the restricted unpickler, and neither
    does [load] on an S3 path: in two environments that differ at most in
    the unpickler that takes a [find_class], [load_with_fn] answers the
    same everywhere, and [load] answers the same on every path that is an
    S3 URL and not a pointer. *)
Theorem load_with_fn_skips_allow_list (env env' : Env Obj) :
  same_but_unpickler env env' →
  (∀ depth path pickle_fn format verbose,
     load_with_fn env depth path pickle_fn format verbose
     = load_with_fn env' depth path pickle_fn format verbose)
  ∧ (∀ depth path format verbose,
       endswith path ".pointer" = false → is_s3_url env path = true →
       load env depth path format verbose = load env' depth path format verbose).
Proof.
  intros (Hs3 & Hptr & Hbody & Hopen & Hpickle). split.
  - induction depth as [|depth IH]; intros path pickle_fn format verbose; [done|].
    cbn [load_with_fn]. unfold effective_format.
    rewrite <-Hs3, <-Hptr, <-Hbody, <-Hopen.
    repeat case_match; try done; apply IH.
  - intros [|depth] path format verbose Hp Hurl; [done|].
    cbn [load]. unfold effective_format.
    rewrite <-Hs3, Hp, Hurl, <-Hbody, <-Hpickle.
    rewrite bool_decide_false by done. by rewrite bool_decide_true by done.
Qed.

End load_pkl.

Lemma load_pointer_cycle_witness :
  ∃ msg, LoadPkl.load LoadPkl.sample_env 5 "a.pointer" None false
         = (LoadPkl.Err (LoadPkl.RecursionError msg), []).
Proof.
  refine (proj1 (load_pointer_cycle LoadPkl.sample_env
                   (λ p, p = "a.pointer" ∨ p = "b.pointer") _
                   5%nat "a.pointer" None false (λ s, LoadPkl.Ok s) _)).
  - intros p [-> | ->]; (split; [reflexivity|]).
    + exists "b.pointer". split; [reflexivity|by right].
    + exists "a.pointer". split; [reflexivity|by left].
  - left. reflexivity.
Defined.

Lemma load_local_reads_exhausted_stream_witness :
  LoadPkl.load LoadPkl.sample_env 1 "model.pkl" None true
  = (match LoadPkl.restricted_loads LoadPkl.sample_env
             [Byte.x80; Byte.x04; Byte.x4e; Byte.x2e] with
     | LoadPkl.Err e => LoadPkl.Err e
     | LoadPkl.Ok _ => LoadPkl.pickle_load LoadPkl.sample_env []
     end, LoadPkl.loading true "model.pkl").
Proof.
  apply (load_local_reads_exhausted_stream LoadPkl.sample_env 0 "model.pkl" None true
           [Byte.x80; Byte.x04; Byte.x4e; Byte.x2e]).
  - vm_compute. reflexivity.
  - vm_compute. reflexivity.
  - discriminate.
  - discriminate.
  - vm_compute. reflexivity.
Defined.

Lemma load_follows_pointer_chain_witness :
  LoadPkl.load LoadPkl.sample_env (length ["c.pointer"] + 1) "c.pointer" (Some "s3") false
  = LoadPkl.load LoadPkl.sample_env 1 "model.pkl" None true.
Proof.
  apply (load_follows_pointer_chain LoadPkl.sample_env ["c.pointer"] "model.pkl" 1
           (Some "s3") false).
  - discriminate.
  - vm_compute. repeat split; discriminate.
Defined.

Lemma load_with_fn_skips_allow_list_witness :
  LoadPkl.load_with_fn LoadPkl.sample_env 2 "c.pointer" (λ s, LoadPkl.Ok s) None true
  = LoadPkl.load_with_fn
      {| LoadPkl.is_s3_url := LoadPkl.is_s3_url LoadPkl.sample_env;
         LoadPkl.get_pointer_content := LoadPkl.get_pointer_content LoadPkl.sample_env;
         LoadPkl.s3_body := LoadPkl.s3_body LoadPkl.sample_env;
         LoadPkl.open_rb := LoadPkl.open_rb LoadPkl.sample_env;
         LoadPkl.unpickler_load := λ _ _, LoadPkl.Err LoadPkl.EOFError;
         LoadPkl.pickle_load := LoadPkl.pickle_load LoadPkl.sample_env |}
      2 "c.pointer" (λ s, LoadPkl.Ok s) None true.
Proof.
  apply (load_with_fn_skips_allow_list LoadPkl.sample_env).
  repeat split.
Defined.
